(** * Verification of the map-hierarchy core of LukeRoberson/maps

    Shallow embedding of the Python sources:
    - [api/backend/boundary.py] and [services/boundary_service.py]:
      [BoundaryService._point_in_polygon], [BoundaryService.is_within_boundary];
    - [backend/boundary.py]: [BoundaryModel.to_geojson];
    - [routes/boundaries.py], [api/routes/boundaries.py]: [create_boundary]
      (with [MapService.read] and [BoundaryService.read]/[create] of
      [api/backend]);
    - [api/backend/boundary.py]: [BoundaryService._get_boundary], [update]
      and [delete], with the routes [get_boundary_by_map_area],
      [update_boundary] and [delete_boundary] of [api/routes/boundaries.py];
    - [backend/layer.py]: [LayerService] ([read], [_list_own_layers],
      [_get_inherited_layers], [_reorder_layers], [create], [update],
      [delete]);
    - [backend/annotation.py]: [AnnotationService.create], [read], [update]
      and [delete];
    - [database/database.py]: [DatabaseManager] as a store whose
      operations may fail, and the SQL text its [create], [read], [update]
      and [delete] build.

    Python floats are IEEE-754 binary64 numbers rounded to nearest even;
    they are modelled by the kernel's primitive floats, whose operations
    compute exactly those results. JSON coordinates are Python [int]s or
    [float]s ([PyNumber]); [PyGeometry] runs the point-in-polygon code on
    them, and [Geometry] is the same code on float pairs only. *)

From Stdlib Require Import ZArith List String Bool Lia Sorted Permutation.
From Stdlib Require Import QArith.
From Stdlib Require Import Floats.
Import ListNotations.

Open Scope Z_scope.

(** ** Python exceptions *)

Inductive exn :=
| ZeroDivisionError
| IndexError
| TypeError (msg : string)
| ValueError (msg : string)
| RuntimeError (msg : string)
| OverflowError (msg : string)
| RecursionError
| SqliteError (msg : string).

(** The outcome of a Python computation: a value or a raised exception. *)
Inductive outcome (A : Type) :=
| Ret (a : A)
| Raise (e : exn).
Arguments Ret {A} a.
Arguments Raise {A} e.

(** * Python float arithmetic *)
Module PyFloat.

Open Scope float_scope.

(** [a / b] on Python floats: [ZeroDivisionError] when [b == 0.0],
    otherwise the IEEE quotient.  [+], [-], [*] and comparisons never
    raise on floats. *)
Definition py_div (a b : float) : outcome float :=
  if (b =? 0)%float then Raise ZeroDivisionError else Ret (a / b).

(** Python's [a > b] on floats. *)
Definition py_gt (a b : float) : bool := (b <? a)%float.

(** Python's [a < b] on floats. *)
Definition py_lt (a b : float) : bool := (a <? b)%float.

Close Scope float_scope.

(** A zero of either sign. *)
Definition is_zero (f : spec_float) : bool :=
  match f with S754_zero _ => true | _ => false end.

(** Python's [a != b] on two booleans. *)
Definition py_ne_bool (a b : bool) : bool := negb (Bool.eqb a b).

End PyFloat.

(** * Geometry kernel ([BoundaryService._point_in_polygon]) on float pairs:
    [PyGeometry] below restricted to coordinates that are all [float]s
    ([PyGeometryFacts.point_in_polygon_floats]) *)
Module Geometry.
Import PyFloat.

(** A coordinate pair as the code unpacks it: [x, y = point] with
    [point = (coord[0], coord[1])], i.e. [x] is the latitude and [y] the
    longitude for [[lat, lon]] input. *)
Definition point := (float * float)%type.

(** The [intersect] expression for the edge from [polygon[j]] ([vj]) to
    [polygon[i]] ([vi]):
    [((yi > y) != (yj > y)) and (x < (xj - xi) * (y - yi) / (yj - yi) + xi)];
    the [and] short-circuits, so the division is evaluated only when the
    first operand holds. *)
Definition edge_intersect (x y : float) (vi vj : point) : outcome bool :=
  let '(xi, yi) := vi in
  let '(xj, yj) := vj in
  if py_ne_bool (py_gt yi y) (py_gt yj y) then
    match py_div ((xj - xi) * (y - yi))%float (yj - yi)%float with
    | Ret q => Ret (py_lt x (q + xi)%float)
    | Raise e => Raise e
    end
  else Ret false.

(** The [for i in range(n)] loop: [vj] is [polygon[j]], the previous
    vertex ([j = n - 1] at first, then [j = i]). *)
Fixpoint pip_loop (x y : float) (vj : point) (rest : list point) (inside : bool)
  : outcome bool :=
  match rest with
  | [] => Ret inside
  | vi :: rest' =>
      match edge_intersect x y vi vj with
      | Ret true => pip_loop x y vi rest' (negb inside)
      | Ret false => pip_loop x y vi rest' inside
      | Raise e => Raise e
      end
  end.

Definition _point_in_polygon (pt : point) (polygon : list point) : outcome bool :=
  let '(x, y) := pt in
  match polygon with
  | [] => Ret false
  | v :: _ => pip_loop x y (last polygon v) polygon false
  end.

(** The edges [(polygon[i], polygon[i-1])] the loop visits, in order,
    [polygon[-1]] being the last vertex. *)
Definition edges (polygon : list point) : list (point * point) :=
  match polygon with
  | [] => []
  | v :: _ => combine polygon (last polygon v :: removelast polygon)
  end.

End Geometry.

(** * Ring export ([BoundaryModel.to_geojson], [Boundary.to_geojson]) *)
Module Ring.
Section ToGeojson.
(** The type of a coordinate value and Python's [==] on it. *)
Variable A : Type.
Variable py_eq : A -> A -> bool.

(** [[a, b] != [c, d]] on two-element lists: [not (a == c and b == d)]. *)
Definition pair_ne (p q : A * A) : bool :=
  negb (py_eq (fst p) (fst q) && py_eq (snd p) (snd q)).

(** The [geometry.coordinates] ring of [to_geojson]: [geojson_coords[0]]
    raises [IndexError] on an empty boundary. *)
Definition to_geojson_coords (coordinates : list (A * A)) : outcome (list (A * A)) :=
  let geojson_coords := map (fun coord => (snd coord, fst coord)) coordinates in
  match geojson_coords with
  | [] => Raise IndexError
  | first :: _ =>
      if pair_ne first (last geojson_coords first)
      then Ret (geojson_coords ++ [first])
      else Ret geojson_coords
  end.
End ToGeojson.
Arguments to_geojson_coords {A} py_eq coordinates.
Arguments pair_ne {A} py_eq p q.
End Ring.

(** * Readings of the geometry sentences of the specification *)
Module GeometrySpec.
Import Geometry PyFloat.

(** The exact rational value of a finite float. *)
Definition sf_to_Q (f : spec_float) : option Q :=
  match f with
  | S754_zero _ => Some 0%Q
  | S754_finite s m e =>
      Some ((if s then -1 else 1) * inject_Z (Zpos m) * Qpower (inject_Z 2) e)%Q
  | _ => None
  end.

Definition float_to_Q (f : float) : option Q := sf_to_Q (Prim2SF f).

Definition orient (a b c : Q * Q) : Q :=
  ((fst b - fst a) * (snd c - snd a) - (snd b - snd a) * (fst c - fst a))%Q.

Definition Qpos (q : Q) : bool := negb (Qle_bool q 0).
Definition Qneg (q : Q) : bool := negb (Qle_bool 0 q).

Definition point_to_Q (p : point) : option (Q * Q) :=
  match float_to_Q (fst p), float_to_Q (snd p) with
  | Some a, Some b => Some (a, b)
  | _, _ => None
  end.

(** [p] lies strictly inside the triangle [a b c], in exact arithmetic on
    the values the floats denote: strictly on the same side of all three
    edges. *)
Definition strictly_inside_triangle (a b c p : point) : bool :=
  match point_to_Q a, point_to_Q b, point_to_Q c, point_to_Q p with
  | Some qa, Some qb, Some qc, Some qp =>
      let o1 := orient qa qb qp in
      let o2 := orient qb qc qp in
      let o3 := orient qc qa qp in
      (Qpos o1 && Qpos o2 && Qpos o3) || (Qneg o1 && Qneg o2 && Qneg o3)
  | _, _, _, _ => false
  end.

(** The edge test as the specification words it: the ray is cast at the
    point's latitude [lat]; the edge is crossed when [lat] lies strictly
    between the edge's two latitudes and the edge's longitude at that
    latitude exceeds the point's longitude [lon]. *)
Definition spec_crossing (lat lon : float) (vi vj : point) : bool :=
  let '(lat_i, lon_i) := vi in
  let '(lat_j, lon_j) := vj in
  py_ne_bool (PyFloat.py_gt lat_i lat) (PyFloat.py_gt lat_j lat) &&
  PyFloat.py_lt lon ((lon_j - lon_i) * (lat - lat_i) / (lat_j - lat_i) + lon_i)%float.

(** The edge test the code performs, with the roles made explicit: the
    between-test is on the second coordinate ([lon]) and the intercept,
    computed on the first coordinates, is compared with the first
    coordinate ([lat]). *)
Definition code_crossing (lat lon : float) (vi vj : point) : bool :=
  let '(lat_i, lon_i) := vi in
  let '(lat_j, lon_j) := vj in
  py_ne_bool (PyFloat.py_gt lon_i lon) (PyFloat.py_gt lon_j lon) &&
  PyFloat.py_lt lat ((lat_j - lat_i) * (lon - lon_i) / (lon_j - lon_i) + lat_i)%float.

Definition crossings (pt : point) (polygon : list point) : nat :=
  List.length (filter (fun e => code_crossing (fst pt) (snd pt) (fst e) (snd e))
                 (edges polygon)).

Definition square : list point :=
  [(0, 0); (0, 10); (10, 10); (10, 0)]%float.

End GeometrySpec.

(** * Python numbers: the [int] and [float] values of JSON coordinates

    [json.loads] gives an [int] for a number written without fraction or
    exponent and a [float] otherwise; coordinates stored by the boundary
    services come back from [json.loads] of [json.dumps] unchanged. The
    operations follow CPython: [int] arithmetic is exact, a mixed operation
    converts the [int] to the nearest float first, [int / int] is the
    correctly rounded quotient, and comparisons of an [int] with a [float]
    are exact. *)
Module PyNumber.

Inductive number :=
| NInt (z : Z)
| NFloat (f : float).

(** Sequencing of computations that may raise. *)
Definition obind {A B} (o : outcome A) (k : A -> outcome B) : outcome B :=
  match o with Ret a => k a | Raise e => Raise e end.

(** An [int] as an exact, unrounded [spec_float] (mantissa [|z|],
    exponent 0). *)
Definition int_sf (z : Z) : spec_float :=
  match z with
  | Z0 => S754_zero false
  | Zpos p => S754_finite false p 0
  | Zneg p => S754_finite true p 0
  end.

(** [float(z)] ([PyLong_AsDouble]): rounded to nearest, ties to even; a
    value that rounds past the largest float raises [OverflowError]. *)
Definition float_of_int (z : Z) : outcome float :=
  match SpecFloat.binary_normalize 53 1024 z 0 false with
  | S754_infinity _ => Raise (OverflowError "int too large to convert to float")
  | sf => Ret (SF2Prim sf)
  end.

(** The operand of a float operation ([CONVERT_TO_DOUBLE]). *)
Definition to_float (a : number) : outcome float :=
  match a with NInt z => float_of_int z | NFloat f => Ret f end.

(** [a - b], [a * b], [a + b]: exact on two [int]s, otherwise on floats
    after converting an [int] operand. *)
Definition arith (zop : Z -> Z -> Z) (fop : float -> float -> float) (a b : number)
  : outcome number :=
  match a, b with
  | NInt x, NInt y => Ret (NInt (zop x y))
  | _, _ => obind (to_float a) (fun x => obind (to_float b) (fun y => Ret (NFloat (fop x y))))
  end.

Definition sub := arith Z.sub PrimFloat.sub.
Definition mul := arith Z.mul PrimFloat.mul.
Definition add := arith Z.add PrimFloat.add.

(** [a / b]: on two [int]s ([long_true_divide]) [ZeroDivisionError] for a
    zero divisor, otherwise the correctly rounded quotient, or
    [OverflowError] past the largest float; with a [float] operand, the
    conversion, then the float division ([float_div]). *)
Definition truediv (a b : number) : outcome number :=
  match a, b with
  | NInt x, NInt y =>
      if y =? 0 then Raise ZeroDivisionError
      else match SpecFloat.SFdiv 53 1024 (int_sf x) (int_sf y) with
           | S754_infinity _ => Raise (OverflowError "integer division result too large for a float")
           | sf => Ret (NFloat (SF2Prim sf))
           end
  | _, _ =>
      obind (to_float a) (fun x => obind (to_float b) (fun y =>
        match PyFloat.py_div x y with Ret q => Ret (NFloat q) | Raise e => Raise e end))
  end.

(** The exact comparison of an [int] with a [float] ([float_richcompare]):
    [None] for NaN, which compares false with everything. *)
Definition cmp_int_float (z : Z) (f : float) : option comparison :=
  match Prim2SF f with
  | S754_nan => None
  | S754_infinity s => Some (if s then Gt else Lt)
  | S754_zero _ => Some (Z.compare z 0)
  | S754_finite s m e =>
      Some (Qcompare (inject_Z z)
              ((if s then -1 else 1) * inject_Z (Zpos m) * Qpower (inject_Z 2) e)%Q)
  end.

(** [a < b]; comparisons never raise. *)
Definition lt (a b : number) : bool :=
  match a, b with
  | NInt x, NInt y => x <? y
  | NFloat x, NFloat y => PyFloat.py_lt x y
  | NInt x, NFloat y => match cmp_int_float x y with Some Lt => true | _ => false end
  | NFloat x, NInt y => match cmp_int_float y x with Some Gt => true | _ => false end
  end.

(** [a > b] is [b < a]. *)
Definition gt (a b : number) : bool := lt b a.

End PyNumber.

(** * [BoundaryService._point_in_polygon] and [is_within_boundary] on JSON
    coordinates: a polygon is a list of JSON arrays of numbers *)
Module PyGeometry.
Import PyNumber.

(** [xi, yi = polygon[i]]: tuple unpacking of a JSON array. *)
Definition unpack2 (v : list number) : outcome (number * number) :=
  match v with
  | [a; b] => Ret (a, b)
  | [] => Raise (ValueError "not enough values to unpack (expected 2, got 0)")
  | [_] => Raise (ValueError "not enough values to unpack (expected 2, got 1)")
  | _ => Raise (ValueError "too many values to unpack (expected 2)")
  end.

(** [((yi > y) != (yj > y)) and (x < (xj - xi) * (y - yi) / (yj - yi) + xi)],
    evaluated left to right; the [and] short-circuits. *)
Definition edge_intersect (x y : number) (vi vj : number * number) : outcome bool :=
  let '(xi, yi) := vi in
  let '(xj, yj) := vj in
  if PyFloat.py_ne_bool (gt yi y) (gt yj y) then
    obind (sub xj xi) (fun d1 =>
    obind (sub y yi) (fun d2 =>
    obind (mul d1 d2) (fun p =>
    obind (sub yj yi) (fun d3 =>
    obind (truediv p d3) (fun q =>
    obind (add q xi) (fun r => Ret (lt x r)))))))
  else Ret false.

(** The [for i in range(n)] loop: [vj] is [polygon[j]] ([j = n - 1] at
    first, then [j = i]); [polygon[i]] is unpacked before [polygon[j]]. *)
Fixpoint pip_loop (x y : number) (vj : list number) (rest : list (list number))
  (inside : bool) : outcome bool :=
  match rest with
  | [] => Ret inside
  | vi :: rest' =>
      obind (unpack2 vi) (fun pi =>
      obind (unpack2 vj) (fun pj =>
      obind (edge_intersect x y pi pj) (fun intersect =>
      pip_loop x y vi rest' (if intersect then negb inside else inside))))
  end.

Definition _point_in_polygon (pt : number * number) (polygon : list (list number))
  : outcome bool :=
  let '(x, y) := pt in
  match polygon with
  | [] => Ret false
  | v :: _ => pip_loop x y (last polygon v) polygon false
  end.

(** [is_within_boundary]: [point = (coord[0], coord[1])] raises
    [IndexError] on a coordinate with fewer than two entries and ignores
    entries past the second. *)
Fixpoint is_within_boundary (coordinates parent_boundary : list (list number))
  : outcome bool :=
  match coordinates with
  | [] => Ret true
  | coord :: rest =>
      match coord with
      | a :: b :: _ =>
          obind (_point_in_polygon (a, b) parent_boundary) (fun inside =>
            if inside then is_within_boundary rest parent_boundary else Ret false)
      | _ => Raise IndexError
      end
  end.

(** A float pair as the JSON array [[a, b]] of two floats. *)
Definition of_point (p : Geometry.point) : list number := [NFloat (fst p); NFloat (snd p)].

End PyGeometry.

(** * The SQLite store ([database.DatabaseContext], [DatabaseManager]) *)

(** [LayerModel] of [backend/layer.py]; a stored row of [layers] has the same
    fields ([_row_to_model] copies them, [bool()] on the 0/1 flags).
    Timestamps are the store's clock ticks; [config] is the JSON text. *)
Module LayerModel.
Record t := mk {
  id : option Z;
  map_area_id : Z;
  parent_layer_id : option Z;
  name : string;
  layer_type : string;
  visible : bool;
  z_index : Z;
  is_editable : bool;
  config : string;
  created_at : Z;
  updated_at : Z
}.
End LayerModel.

(** [MapModel] of [api/backend/map.py], the fields the services read. *)
Module MapModel.
Record t := mk {
  id : Z;
  parent_id : option Z;
  area_type : string
}.
End MapModel.

(** [BoundaryModel] of [api/backend/boundary.py]; [coordinates] is the
    JSON list of coordinates, each a JSON array of numbers. *)
Module BoundaryModel.
Record t := mk {
  id : option Z;
  map_id : Z;
  coordinates : list (list PyNumber.number)
}.
End BoundaryModel.

(** [AnnotationModel] of [backend/annotation.py]; [coordinates] and [style]
    are their JSON text. *)
Module AnnotationModel.
Record t := mk {
  id : option Z;
  layer_id : Z;
  annotation_type : string;
  coordinates : string;
  style : string;
  content : string;
  updated_at : Z
}.
End AnnotationModel.

(** The statements the services send, one per [DatabaseContext] block. *)
Inductive query :=
| QAreaParent (map_id : Z)                 (* SELECT parent_id FROM map_areas WHERE id = ? *)
| QOwnLayers (map_id : Z)                  (* layers WHERE map_area_id = ? AND parent_layer_id IS NULL *)
| QInheritedCopy (map_id : Z) (parent_layer_id : option Z)
| QLayerById (layer_id : Z)
| QInsertLayer
| QUpdateLayer (layer_id : Z)
| QDeleteLayer (layer_id : Z)
| QAreaById (map_id : Z)
| QAreaList
| QBoundaryByArea (map_id : Z)
| QInsertBoundary
| QLayerEditable (layer_id : Z)            (* SELECT id, is_editable FROM layers WHERE id = ? *)
| QInsertAnnotation
| QUpdateAnnotation (annotation_id : Z)
| QAnnotationById (annotation_id : Z)
| QReorderLayer (layer_id : Z)            (* UPDATE layers SET z_index = ?, updated_at = ... WHERE id = ? *)
| QDeleteAnnotation (annotation_id : Z)
| QBoundaryById (boundary_id : Z)
| QUpdateBoundary (boundary_id : Z)
| QDeleteBoundary (boundary_id : Z).

(** The database file: its tables in rowid order, the clock that
    [CURRENT_TIMESTAMP] reads, which statements fail (an [sqlite3.Error]
    raised by [cursor.execute]), and, for each table declared
    [AUTOINCREMENT], the largest rowid it ever held ([sqlite_sequence];
    [None] for a table without [AUTOINCREMENT]). *)
Record DB := mkDB {
  map_areas : list MapModel.t;
  layers : list LayerModel.t;
  boundaries : list BoundaryModel.t;
  annotations : list AnnotationModel.t;
  clock : Z;
  fails : query -> bool;
  sequence : string -> option Z
}.

Definition set_layers (db : DB) (ls : list LayerModel.t) : DB :=
  mkDB (map_areas db) ls (boundaries db) (annotations db) (clock db) (fails db) (sequence db).
Definition set_boundaries (db : DB) (bs : list BoundaryModel.t) : DB :=
  mkDB (map_areas db) (layers db) bs (annotations db) (clock db) (fails db) (sequence db).
Definition set_annotations (db : DB) (ans : list AnnotationModel.t) : DB :=
  mkDB (map_areas db) (layers db) (boundaries db) ans (clock db) (fails db) (sequence db).

(** [sqlite_sequence] after an insert of rowid [r] into [table]. *)
Definition set_sequence (db : DB) (table : string) (r : Z) : DB :=
  mkDB (map_areas db) (layers db) (boundaries db) (annotations db) (clock db) (fails db)
       (fun t => if String.eqb t table then option_map (fun _ => r) (sequence db t)
                 else sequence db t).

(** Computations over the store that may raise. *)
Definition M (A : Type) : Type := DB -> DB * outcome A.

Definition ret {A} (a : A) : M A := fun db => (db, Ret a).
Definition raise {A} (e : exn) : M A := fun db => (db, Raise e).
Definition bind {A B} (m : M A) (k : A -> M B) : M B :=
  fun db => match m db with
            | (db', Ret a) => k a db'
            | (db', Raise e) => (db', Raise e)
            end.
Definition lift {A} (o : outcome A) : M A := fun db => (db, o).

Notation "x <- m ;; k" := (bind m (fun x => k))
  (at level 61, m at next level, right associativity).

(** [try: m except Exception as e: handler e]. *)
Definition try_except {A} (m : M A) (handler : exn -> M A) : M A :=
  fun db => match m db with
            | (db', Raise e) => handler e db'
            | r => r
            end.

(** One statement in a [DatabaseContext]: a failing statement raises and the
    context rolls back, leaving the store as it was; otherwise it runs and
    commits. *)
Definition db_exec {A} (q : query) (f : DB -> DB * A) : M A :=
  fun db => if fails db q then (db, Raise (SqliteError "database error"))
            else let '(db', a) := f db in (db', Ret a).

Definition str_exn (e : exn) : string :=
  match e with
  | ZeroDivisionError => "float division by zero"
  | IndexError => "list index out of range"
  | RecursionError => "maximum recursion depth exceeded"
  | TypeError msg | ValueError msg | RuntimeError msg | OverflowError msg
  | SqliteError msg => msg
  end.

(** Python's truth value of an optional integer column. *)
Definition truthy (v : option Z) : bool :=
  match v with Some z => negb (z =? 0) | None => false end.

(** A stable insertion sort: an element goes before the first one it is
    [le] to, so equal keys keep their order ([list.sort] and SQLite's
    [ORDER BY] over rows read in rowid order). *)
Fixpoint insert_by {A} (le : A -> A -> bool) (x : A) (l : list A) : list A :=
  match l with
  | [] => [x]
  | y :: l' => if le x y then x :: l else y :: insert_by le x l'
  end.

Fixpoint sort_by {A} (le : A -> A -> bool) (l : list A) : list A :=
  match l with
  | [] => []
  | x :: l' => insert_by le x (sort_by le l')
  end.

(** [key=lambda layer: layer.z_index]. *)
Definition le_z (a b : LayerModel.t) : bool :=
  LayerModel.z_index a <=? LayerModel.z_index b.

(** [ORDER BY z_index, created_at]. *)
Definition le_z_created (a b : LayerModel.t) : bool :=
  (LayerModel.z_index a <? LayerModel.z_index b) ||
  ((LayerModel.z_index a =? LayerModel.z_index b) &&
   (LayerModel.created_at a <=? LayerModel.created_at b)).

(** One past the largest rowid of a table ([1] for an empty one). *)
Definition next_rowid (ids : list (option Z)) : Z :=
  1 + fold_right (fun o m => match o with Some i => Z.max i m | None => m end) 0 ids.

(** The rowid an insert assigns ([cursor.lastrowid]): one past the largest
    rowid in the table and, for an [AUTOINCREMENT] table, also past the
    largest it ever held. *)
Definition insert_rowid (seq : option Z) (ids : list (option Z)) : Z :=
  match seq with
  | None => next_rowid ids
  | Some s => Z.max (next_rowid ids) (s + 1)
  end.

Definition opt_eqb (a : option Z) (b : Z) : bool :=
  match a with Some x => x =? b | None => false end.

(** [str()] of a non-negative integer, most significant digit first. *)
Fixpoint decimal_digits (fuel : nat) (n : Z) (acc : string) : string :=
  match fuel with
  | O => acc
  | S f =>
      let acc' := String (Ascii.ascii_of_nat (48 + Z.to_nat (n mod 10))) acc in
      if n <? 10 then acc' else decimal_digits f (n / 10) acc'
  end.

Definition z_to_string (n : Z) : string :=
  let fuel := S (Z.to_nat (Z.log2 (Z.abs n))) in
  if n <? 0 then String (Ascii.ascii_of_nat 45) (decimal_digits fuel (- n) EmptyString)
  else decimal_digits fuel n EmptyString.

(** * The statements [DatabaseManager] of [database/database.py] builds *)
Module DatabaseManager.
Local Open Scope string_scope.

(** The values bound to statements (ASCII text). *)
Inductive pyval :=
| PInt (z : Z)
| PStr (s : string)
| PNone.

Fixpoint in_chars (c : Ascii.ascii) (chars : string) : bool :=
  match chars with
  | EmptyString => false
  | String d chars' => Ascii.eqb c d || in_chars c chars'
  end.

(** [s.rstrip(chars)]: drops every trailing character that is in [chars]. *)
Fixpoint rstrip (chars s : string) : string :=
  match s with
  | EmptyString => EmptyString
  | String c s' =>
      match rstrip chars s' with
      | EmptyString => if in_chars c chars then EmptyString else String c EmptyString
      | r => String c r
      end
  end.

(** [str.upper] on ASCII text. *)
Fixpoint upper (s : string) : string :=
  match s with
  | EmptyString => EmptyString
  | String c s' =>
      let n := Ascii.nat_of_ascii c in
      String (if andb (Nat.leb 97 n) (Nat.leb n 122) then Ascii.ascii_of_nat (n - 32) else c)
             (upper s')
  end.

(** [value == 'NULL']. *)
Definition is_NULL (v : pyval) : bool :=
  match v with PStr s => String.eqb s "NULL" | _ => false end.

(** [isinstance(value, str) and value.upper() == "CURRENT_TIMESTAMP"]. *)
Definition is_current_timestamp (v : pyval) : bool :=
  match v with PStr s => String.eqb (upper s) "CURRENT_TIMESTAMP" | _ => false end.

(** [create(table, params)]: the statement and its parameters. *)
Definition create (table : string) (params : list (string * pyval)) : string * list pyval :=
  let '(full_query, parameters) :=
    fold_left (fun '(q, ps) '(key, value) => (q ++ key ++ ", ", app ps [value]))
              params ("INSERT INTO " ++ table ++ " (", []) in
  let full_query := rstrip ", " full_query ++ ") VALUES (" in
  (full_query ++ concat ", " (repeat "?" (List.length params)) ++ ")", parameters).

(** [read(table, fields, params, order_by, order_desc, limit)]. *)
Definition read (table : string) (fields : list string) (params : list (string * pyval))
  (order_by : option (list string)) (order_desc : bool) (limit : option Z)
  : string * list pyval :=
  let query := "SELECT " ++ concat ", " fields ++ " FROM " ++ table ++ " " in
  let query := match params with [] => query | _ :: _ => query ++ "WHERE " end in
  let '(query, parameters) :=
    fold_left (fun '(q, ps) '(key, value) =>
                 if is_NULL value then (q ++ key ++ " IS NULL AND ", ps)
                 else (q ++ key ++ " = ? AND ", app ps [value]))
              params (query, []) in
  let query := rstrip " AND " query in
  let query := match order_by with
               | Some ((_ :: _) as ob) =>
                   query ++ " ORDER BY " ++ concat ", " ob ++ (if order_desc then " DESC" else "")
               | _ => query
               end in
  let query := match limit with
               | Some n => query ++ " LIMIT " ++ z_to_string n
               | None => query
               end in
  (query, parameters).

(** [update(table, fields, parameters)]: the statement and [values]. *)
Definition update (table : string) (fields parameters : list (string * pyval))
  : string * list pyval :=
  let '(update_string, field_values) :=
    fold_left (fun '(s, fv) '(key, value) =>
                 if is_current_timestamp value then (s ++ key ++ " = CURRENT_TIMESTAMP, ", fv)
                 else (s ++ key ++ " = ?, ", app fv [value]))
              fields ("UPDATE " ++ table ++ " SET ", []) in
  let update_string := rstrip ", " update_string ++ " WHERE " in
  let '(update_string, param_values) :=
    fold_left (fun '(s, pv) '(key, value) => (s ++ key ++ " = ?", app pv [value]))
              parameters (update_string, []) in
  (update_string, app field_values param_values).

(** [delete(table, parameters)]. *)
Definition delete (table : string) (parameters : list (string * pyval)) : string * list pyval :=
  let '(delete_string, param_list) :=
    fold_left (fun '(s, pl) '(key, value) => (s ++ key ++ " = ? AND ", app pl [value]))
              parameters ("DELETE FROM " ++ table ++ " WHERE ", []) in
  (rstrip " AND " delete_string, param_list).

End DatabaseManager.

(** The text a column receives from [CURRENT_TIMESTAMP]: the current time
    as text, rendered from the store's clock. *)
Definition timestamp_text (now : Z) : string := z_to_string now.

(** The value [DatabaseManager.update] writes for a string field: one whose
    [upper()] is [CURRENT_TIMESTAMP] is put inline in the statement, so the
    column receives the current time instead of the string. *)
Definition update_text (now : Z) (v : string) : string :=
  if DatabaseManager.is_current_timestamp (DatabaseManager.PStr v)
  then timestamp_text now else v.

(** * [LayerService] of [backend/layer.py] *)
Module LayerService.
Import LayerModel.

Definition find_layer (ls : list LayerModel.t) (layer_id : Z) : option LayerModel.t :=
  find (fun l => opt_eqb (id l) layer_id) ls.

Definition find_area (areas : list MapModel.t) (map_id : Z) : option MapModel.t :=
  find (fun a => MapModel.id a =? map_id) areas.

(** A row's [id] and timestamps as an insert assigns them. *)
Definition stored (l : LayerModel.t) (rowid now : Z) : LayerModel.t :=
  mk (Some rowid) (map_area_id l) (parent_layer_id l) (name l) (layer_type l)
     (visible l) (z_index l) (is_editable l) (config l) now now.

(** [read(layer_id=...)]: [if layer_id:] is false for [0], and the
    [elif map_id:] branch is not taken either, so [None] comes back; a store
    error is logged and gives [None]. *)
Definition read_layer (layer_id : Z) : M (option LayerModel.t) :=
  if layer_id =? 0 then ret None
  else try_except
         (db_exec (QLayerById layer_id) (fun db => (db, find_layer (layers db) layer_id)))
         (fun _ => ret None).

Definition is_own_layer (map_id : Z) (l : LayerModel.t) : bool :=
  (map_area_id l =? map_id) &&
  match parent_layer_id l with None => true | Some _ => false end.

(** [_list_own_layers]: [parent_layer_id IS NULL], [ORDER BY z_index,
    created_at]; a store error is logged and gives [[]]. *)
Definition _list_own_layers (map_id : Z) : M (list LayerModel.t) :=
  try_except
    (db_exec (QOwnLayers map_id)
       (fun db => (db, sort_by le_z_created (filter (is_own_layer map_id) (layers db)))))
    (fun _ => ret []).

(** [layer.id = ...]: the caller's object with its id set. *)
Definition with_id (l : LayerModel.t) (rowid : Z) : LayerModel.t :=
  mk (Some rowid) (map_area_id l) (parent_layer_id l) (name l) (layer_type l)
     (visible l) (z_index l) (is_editable l) (config l) (created_at l) (updated_at l).

(** [create]: the insert stores the row under a fresh rowid with the
    store's timestamps ([DEFAULT CURRENT_TIMESTAMP]); the caller's [layer]
    is returned with [layer.id] set to that rowid and its own timestamps; a
    store error is re-raised. *)
Definition create (layer : LayerModel.t) : M LayerModel.t :=
  db_exec QInsertLayer
    (fun db => let rowid := insert_rowid (sequence db "layers") (map id (layers db)) in
               (set_layers (set_sequence db "layers" rowid)
                           (layers db ++ [stored layer rowid (clock db)]),
                with_id layer rowid)).

(** The attributes of an [sqlite3.Row] object: it offers [keys()] and
    index or key access ([row[0]], [row['parent_id']]), but no attribute
    per column. *)
Definition sqlite3_Row_attributes : list string := ["keys"%string].

(** [getattr(row, attr, default)] for a column attribute of the row. *)
Definition getattr_row (attr : string) (column : option Z) (default : option Z) : option Z :=
  if existsb (String.eqb attr) sqlite3_Row_attributes then column else default.

(** [SELECT * FROM layers WHERE map_area_id = ? AND parent_layer_id = ?]
    with fetchone; [= NULL] matches no row. *)
Definition find_inherited_copy (ls : list LayerModel.t) (map_id : Z) (pid : option Z)
  : option LayerModel.t :=
  find (fun l => (map_area_id l =? map_id) &&
                 match parent_layer_id l, pid with
                 | Some a, Some b => a =? b
                 | _, _ => false
                 end) ls.

(** The [for parent_layer in parent_layers] loop of [_get_inherited_layers]. *)
Fixpoint inherit_loop (map_id : Z) (parent_layers : list LayerModel.t) : M (list LayerModel.t) :=
  match parent_layers with
  | [] => ret []
  | parent_layer :: rest =>
      existing <- try_except
                    (row <- db_exec (QInheritedCopy map_id (id parent_layer))
                              (fun db => (db, find_inherited_copy (layers db) map_id
                                                (id parent_layer)));;
                     ret (Some row))
                    (fun _ => ret None);;
      match existing with
      | None => inherit_loop map_id rest
      | Some (Some existing_row) =>
          tl <- inherit_loop map_id rest;; ret (existing_row :: tl)
      | Some None =>
          created <- create (mk None map_id (id parent_layer) (name parent_layer)
                               (layer_type parent_layer) (visible parent_layer)
                               (z_index parent_layer) false (config parent_layer) 0 0);;
          tl <- inherit_loop map_id rest;; ret (created :: tl)
      end
  end.

(** [_get_inherited_layers]; [read] is the recursive [self.read(map_id=...)]. *)
Definition _get_inherited_layers (read : Z -> M (option (list LayerModel.t)))
  (map_id : Z) : M (list LayerModel.t) :=
  parent <- try_except
    (parent_row <- db_exec (QAreaParent map_id)
                     (fun db => (db, option_map MapModel.parent_id
                                       (find_area (map_areas db) map_id)));;
     match parent_row with
     | None => ret None
     | Some column =>
         if negb (truthy column) then ret None
         else
           let parent_id_value := getattr_row "parent_id" column None in
           if negb (truthy parent_id_value) then ret None
           else ret parent_id_value
     end)
    (fun _ => ret None);;
  match parent with
  | None => ret []
  | Some parent_id =>
      parent_layers <- read parent_id;;
      match parent_layers with
      | None => raise (TypeError "'NoneType' object is not iterable")
      | Some pls => inherit_loop map_id pls
      end
  end.

(** [read(map_id=...)], with [fuel] standing for the interpreter's
    recursion limit. *)
Fixpoint read_map (fuel : nat) (map_id : Z) : M (option (list LayerModel.t)) :=
  match fuel with
  | O => raise RecursionError
  | S f =>
      if map_id =? 0 then ret None
      else
        own_layers <- _list_own_layers map_id;;
        inherited_layers <- _get_inherited_layers (read_map f) map_id;;
        ret (Some (sort_by le_z (own_layers ++ inherited_layers)))
  end.

(** The entries of the [updates] dict: the four fields [update] copies and
    any other key. Values are the JSON text [json.dumps] produces. *)
Inductive layer_update :=
| UName (v : string)
| UVisible (v : bool)
| UZIndex (v : Z)
| UConfig (v : string)
| UOther (key : string) (v : string).

Definition update_key (u : layer_update) : string :=
  match u with
  | UName _ => "name" | UVisible _ => "visible" | UZIndex _ => "z_index"
  | UConfig _ => "config" | UOther k _ => k
  end.

Definition allowed_fields : list string := ["name"; "visible"; "z_index"; "config"]%string.

(** A dict entry whose key is one of the four fields is written with that
    field's constructor, never as [UOther]. *)
Definition well_keyed (u : layer_update) : Prop :=
  match u with UOther k _ => ~ In k allowed_fields | _ => True end.

(** [all_fields]: for each allowed field present in [updates], its value. *)
Definition all_fields (updates : list layer_update) : list layer_update :=
  flat_map (fun field =>
              match find (fun u => String.eqb (update_key u) field) updates with
              | Some u => [u]
              | None => []
              end) allowed_fields.

Definition set_field (l : LayerModel.t) (u : layer_update) : LayerModel.t :=
  match u with
  | UName v => mk (id l) (map_area_id l) (parent_layer_id l) v (layer_type l)
                  (visible l) (z_index l) (is_editable l) (config l) (created_at l) (updated_at l)
  | UVisible v => mk (id l) (map_area_id l) (parent_layer_id l) (name l) (layer_type l)
                  v (z_index l) (is_editable l) (config l) (created_at l) (updated_at l)
  | UZIndex v => mk (id l) (map_area_id l) (parent_layer_id l) (name l) (layer_type l)
                  (visible l) v (is_editable l) (config l) (created_at l) (updated_at l)
  | UConfig v => mk (id l) (map_area_id l) (parent_layer_id l) (name l) (layer_type l)
                  (visible l) (z_index l) (is_editable l) v (created_at l) (updated_at l)
  | UOther _ _ => l
  end.

Definition touch (l : LayerModel.t) (now : Z) : LayerModel.t :=
  mk (id l) (map_area_id l) (parent_layer_id l) (name l) (layer_type l)
     (visible l) (z_index l) (is_editable l) (config l) (created_at l) now.

(** A field as [DatabaseManager.update] writes it (the string values). *)
Definition inline_timestamp (now : Z) (u : layer_update) : layer_update :=
  match u with
  | UName v => UName (update_text now v)
  | UConfig v => UConfig (update_text now v)
  | _ => u
  end.

(** [UPDATE layers SET ..., updated_at = CURRENT_TIMESTAMP WHERE id = ?]. *)
Definition update_rows (db : DB) (layer_id : Z) (fields : list layer_update) : DB :=
  set_layers db (map (fun l => if opt_eqb (id l) layer_id
                               then touch (fold_left set_field
                                             (map (inline_timestamp (clock db)) fields) l)
                                          (clock db)
                               else l) (layers db)).

Definition update (layer_id : Z) (updates : list layer_update) : M (option LayerModel.t) :=
  layer <- read_layer layer_id;;
  match layer with
  | None => ret None
  | Some l =>
      if negb (is_editable l) then
        raise (ValueError "Cannot update inherited layer. Inherited layers are read-only.")
      else
        _ <- db_exec (QUpdateLayer layer_id)
               (fun db => (update_rows db layer_id (all_fields updates), tt));;
        read_layer layer_id
  end.

Definition delete (layer_id : Z) : M bool :=
  layer <- read_layer layer_id;;
  match layer with
  | None => ret false
  | Some l =>
      if negb (is_editable l) then
        raise (ValueError "Cannot delete inherited layer. Inherited layers are read-only.")
      else
        _ <- db_exec (QDeleteLayer layer_id)
               (fun db => (set_layers db (filter (fun l => negb (opt_eqb (id l) layer_id))
                                                 (layers db)), tt));;
        ret true
  end.

(** [_reorder_layers]: one [{id, z_index}] entry at a time, an [UPDATE] of
    [z_index] and [updated_at]; a failing update is logged and skipped
    ([continue]), otherwise the row is read back and kept when found. *)
Fixpoint _reorder_layers (layer_updates : list (Z * Z)) : M (list LayerModel.t) :=
  match layer_updates with
  | [] => ret []
  | (layer_id, z_index) :: rest =>
      updated <- try_except
                   (_ <- db_exec (QReorderLayer layer_id)
                           (fun db => (update_rows db layer_id [UZIndex z_index], tt));;
                    ret true)
                   (fun _ => ret false);;
      if updated then
        updated_layer <- read_layer layer_id;;
        updated_layers <- _reorder_layers rest;;
        ret (match updated_layer with
             | Some l => l :: updated_layers
             | None => updated_layers
             end)
      else _reorder_layers rest
  end.

End LayerService.

(** * [AnnotationService] of [backend/annotation.py] *)
Module AnnotationService.
Import AnnotationModel.

Definition find_annotation (ans : list AnnotationModel.t) (annotation_id : Z)
  : option AnnotationModel.t :=
  find (fun a => opt_eqb (id a) annotation_id) ans.

(** [SELECT id, is_editable FROM layers WHERE id = ?], fetchone; the flag
    is [layer_row[1]]. *)
Definition layer_row (db : DB) (lid : Z) : option bool :=
  option_map LayerModel.is_editable (LayerService.find_layer (layers db) lid).

(** [create]: the caller's [annotation] is returned with [annotation.id]
    set to the new rowid. *)
Definition create (annotation : AnnotationModel.t) : M AnnotationModel.t :=
  _ <- try_except
         (row <- db_exec (QLayerEditable (layer_id annotation))
                   (fun db => (db, layer_row db (layer_id annotation)));;
          match row with
          | None =>
              raise (ValueError (String.append "Layer with ID "
                       (String.append (z_to_string (layer_id annotation)) " does not exist")))
          | Some is_editable =>
              if negb is_editable
              then raise (ValueError "Cannot create annotations on read-only layers")
              else ret tt
          end)
         (fun e => raise (ValueError (String.append "Error validating layer: " (str_exn e))));;
  try_except
    (db_exec QInsertAnnotation
       (fun db =>
          let rowid := insert_rowid (sequence db "annotations") (map id (annotations db)) in
          let row := mk (Some rowid) (layer_id annotation)
                        (annotation_type annotation) (coordinates annotation)
                        (style annotation) (content annotation) (clock db) in
          (set_annotations (set_sequence db "annotations" rowid) (annotations db ++ [row]),
           mk (Some rowid) (layer_id annotation) (annotation_type annotation)
              (coordinates annotation) (style annotation) (content annotation)
              (updated_at annotation))))
    (fun e => raise (ValueError (String.append "Error creating annotation: " (str_exn e)))).

(** [read(annotation_id=...)], the branch for one annotation (the
    [read(layer_id=...)] listing branch is not modelled): [0] takes neither
    branch and gives [None]. *)
Definition read (annotation_id : Z) : M (option AnnotationModel.t) :=
  if annotation_id =? 0 then ret None
  else try_except
         (db_exec (QAnnotationById annotation_id)
            (fun db => (db, find_annotation (annotations db) annotation_id)))
         (fun e => raise (ValueError (String.append "Error retrieving annotation: " (str_exn e)))).

(** The entries of the [updates] dict (values as their JSON text). *)
Inductive annotation_update :=
| UCoordinates (v : string)
| UStyle (v : string)
| UContent (v : string)
| UOther (key : string) (v : string).

Definition update_key (u : annotation_update) : string :=
  match u with
  | UCoordinates _ => "coordinates" | UStyle _ => "style"
  | UContent _ => "content" | UOther k _ => k
  end.

Definition allowed_fields : list string := ["coordinates"; "style"; "content"]%string.

Definition all_fields (updates : list annotation_update) : list annotation_update :=
  flat_map (fun field =>
              match find (fun u => String.eqb (update_key u) field) updates with
              | Some u => [u]
              | None => []
              end) allowed_fields.

Definition set_field (a : AnnotationModel.t) (u : annotation_update) : AnnotationModel.t :=
  match u with
  | UCoordinates v => mk (id a) (layer_id a) (annotation_type a) v (style a) (content a) (updated_at a)
  | UStyle v => mk (id a) (layer_id a) (annotation_type a) (coordinates a) v (content a) (updated_at a)
  | UContent v => mk (id a) (layer_id a) (annotation_type a) (coordinates a) (style a) v (updated_at a)
  | UOther _ _ => a
  end.

(** A field as [DatabaseManager.update] writes it. *)
Definition inline_timestamp (now : Z) (u : annotation_update) : annotation_update :=
  match u with
  | UCoordinates v => UCoordinates (update_text now v)
  | UStyle v => UStyle (update_text now v)
  | UContent v => UContent (update_text now v)
  | UOther k v => UOther k v
  end.

(** [UPDATE annotations SET ..., updated_at = CURRENT_TIMESTAMP WHERE id = ?]. *)
Definition update_rows (db : DB) (annotation_id : Z) (fields : list annotation_update) : DB :=
  set_annotations db
    (map (fun a => if opt_eqb (id a) annotation_id
                   then let a' := fold_left set_field
                                    (map (inline_timestamp (clock db)) fields) a in
                        mk (id a') (layer_id a') (annotation_type a') (coordinates a')
                           (style a') (content a') (clock db)
                   else a) (annotations db)).

(** [update]: no check of the owning layer. *)
Definition update (annotation_id : Z) (updates : list annotation_update)
  : M (option AnnotationModel.t) :=
  _ <- try_except
         (db_exec (QUpdateAnnotation annotation_id)
            (fun db => (update_rows db annotation_id (all_fields updates), tt)))
         (fun e => raise (ValueError (String.append "Error updating annotation: " (str_exn e))));;
  read annotation_id.

(** [delete]: [DELETE FROM annotations WHERE id = ?]; the result is
    [cursor.rowcount > 0], the number of rows removed. *)
Definition delete (annotation_id : Z) : M bool :=
  rowcount <- try_except
    (db_exec (QDeleteAnnotation annotation_id)
       (fun db =>
          let kept := filter (fun a => negb (opt_eqb (id a) annotation_id)) (annotations db) in
          (set_annotations db kept, (List.length (annotations db) - List.length kept)%nat)))
    (fun e => raise (ValueError (String.append "Error deleting annotation: " (str_exn e))));;
  ret (Nat.ltb 0 rowcount).

End AnnotationService.

(** * [MapService.read] of [api/backend/map.py] *)
Module MapService.

(** [read(map_id)]: [0] falls to the listing branch with [project_id=None],
    whose [project_id = NULL] matches no row, so the caller gets a falsy [[]];
    store errors are re-raised. *)
Definition read (map_id : Z) : M (option MapModel.t) :=
  if map_id =? 0 then
    _ <- db_exec QAreaList (fun db => (db, tt));; ret None
  else db_exec (QAreaById map_id)
         (fun db => (db, LayerService.find_area (map_areas db) map_id)).

End MapService.

(** * [BoundaryService] of [api/backend/boundary.py] *)
Module BoundaryService.

(** [BoundaryModel.__init__]: at least 3 coordinates, then each of
    length 2. *)
Definition BoundaryModel_init (map_id : Z) (coordinates : list (list PyNumber.number))
  (id : option Z) : outcome BoundaryModel.t :=
  if (List.length coordinates <? 3)%nat
  then Raise (ValueError "Boundary must have at least 3 coordinate pairs")
  else if existsb (fun coord => negb (Nat.eqb (List.length coord) 2)) coordinates
  then Raise (ValueError "Each coordinate must be [lat, lon]")
  else Ret (BoundaryModel.mk id map_id coordinates).

Definition find_boundary (bs : list BoundaryModel.t) (map_id : Z) : option BoundaryModel.t :=
  find (fun b => BoundaryModel.map_id b =? map_id) bs.

(** [read(map_id)]: with no row the function ends in a bare [raise] outside
    any handler, which raises [RuntimeError]. *)
Definition read (map_id : Z) : M (option BoundaryModel.t) :=
  row <- db_exec (QBoundaryByArea map_id)
           (fun db => (db, find_boundary (boundaries db) map_id));;
  match row with
  | Some b =>
      m <- lift (BoundaryModel_init (BoundaryModel.map_id b) (BoundaryModel.coordinates b)
                   (BoundaryModel.id b));;
      ret (Some m)
  | None => raise (RuntimeError "No active exception to reraise")
  end.

(** [create]: the caller's [boundary] comes back with [boundary.id] set,
    i.e. as the stored row. *)
Definition create (boundary : BoundaryModel.t) : M BoundaryModel.t :=
  db_exec QInsertBoundary
    (fun db =>
       let rowid := insert_rowid (sequence db "boundaries") (map BoundaryModel.id (boundaries db)) in
       let row := BoundaryModel.mk (Some rowid)
                    (BoundaryModel.map_id boundary) (BoundaryModel.coordinates boundary) in
       (set_boundaries (set_sequence db "boundaries" rowid) (boundaries db ++ [row]), row)).

Definition is_within_boundary := PyGeometry.is_within_boundary.

Definition find_boundary_by_id (bs : list BoundaryModel.t) (boundary_id : Z)
  : option BoundaryModel.t :=
  find (fun b => opt_eqb (BoundaryModel.id b) boundary_id) bs.

(** [_get_boundary(boundary_id)]: store errors are re-raised, no row gives
    [None]; a row goes through [_row_to_model], i.e. the constructor. *)
Definition _get_boundary (boundary_id : Z) : M (option BoundaryModel.t) :=
  row <- db_exec (QBoundaryById boundary_id)
           (fun db => (db, find_boundary_by_id (boundaries db) boundary_id));;
  match row with
  | Some b =>
      m <- lift (BoundaryModel_init (BoundaryModel.map_id b) (BoundaryModel.coordinates b)
                   (BoundaryModel.id b));;
      ret (Some m)
  | None => ret None
  end.

(** [update(boundary_id, coordinates)]: [UPDATE boundaries SET coordinates = ?,
    updated_at = CURRENT_TIMESTAMP WHERE id = ?] (the JSON text of the
    coordinates reads back as the same lists), then [_get_boundary]. *)
Definition update (boundary_id : Z) (coordinates : list (list PyNumber.number))
  : M (option BoundaryModel.t) :=
  _ <- db_exec (QUpdateBoundary boundary_id)
         (fun db => (set_boundaries db
                       (map (fun b => if opt_eqb (BoundaryModel.id b) boundary_id
                                      then BoundaryModel.mk (BoundaryModel.id b)
                                             (BoundaryModel.map_id b) coordinates
                                      else b) (boundaries db)), tt));;
  _get_boundary boundary_id.

(** [delete(boundary_id)]: [cursor.rowcount > 0]. *)
Definition delete (boundary_id : Z) : M bool :=
  rowcount <- db_exec (QDeleteBoundary boundary_id)
    (fun db =>
       let kept := filter (fun b => negb (opt_eqb (BoundaryModel.id b) boundary_id))
                          (boundaries db) in
       (set_boundaries db kept, (List.length (boundaries db) - List.length kept)%nat));;
  ret (Nat.ltb 0 rowcount).

End BoundaryService.

(** * The [POST /api/boundaries] handler [create_boundary] for a request
    that carries both required fields. [routes/boundaries.py] and
    [api/routes/boundaries.py] validate alike; the model follows the latter,
    whose [BoundaryModel(map_id=...)] call matches [api/backend]'s
    constructor. *)
Module BoundaryRoutes.
Local Open Scope string_scope.

Inductive response :=
| RBoundary (b : BoundaryModel.t)
| RError (msg : string)
| RMessage (msg : string).

Definition rejection_message (area_type : string) : string :=
  let map_type := if String.eqb area_type "individual" then "Individual map" else "Suburb" in
  let parent_type := if String.eqb area_type "individual" then "suburb" else "master map" in
  String.append map_type
    (String.append " boundary must be completely within the "
       (String.append parent_type " boundary")).

Definition create_boundary (map_area_id : Z) (coordinates : list (list PyNumber.number))
  : M (Z * response) :=
  try_except
    (map_area <- MapService.read map_area_id;;
     match map_area with
     | None => ret (404, RError "Map area not found")
     | Some ma =>
         rejection <-
           match MapModel.parent_id ma with
           | Some parent_id =>
               if Z.eqb parent_id 0 then ret None
               else
                 parent_boundary <- BoundaryService.read parent_id;;
                 match parent_boundary with
                 | Some pb =>
                     is_valid <- lift (BoundaryService.is_within_boundary coordinates
                                         (BoundaryModel.coordinates pb));;
                     if is_valid then ret None
                     else ret (Some (400, RError (rejection_message (MapModel.area_type ma))))
                 | None => ret None
                 end
           | None => ret None
           end;;
         match rejection with
         | Some r => ret r
         | None =>
             boundary <- lift (BoundaryService.BoundaryModel_init map_area_id coordinates None);;
             created_boundary <- BoundaryService.create boundary;;
             ret (201, RBoundary created_boundary)
         end
     end)
    (fun e => ret (500, RError (str_exn e))).

(** [GET /api/boundaries/map-area/<map_area_id>]; a [BoundaryModel] object
    is always truthy. *)
Definition get_boundary_by_map_area (map_area_id : Z) : M (Z * response) :=
  try_except
    (boundary <- BoundaryService.read map_area_id;;
     match boundary with
     | None => ret (404, RError "Boundary not found")
     | Some b => ret (200, RBoundary b)
     end)
    (fun e => ret (500, RError (str_exn e))).

(** [PUT /api/boundaries/<boundary_id>] with a JSON body; [coordinates] is
    its ['coordinates'] entry, [None] when the body lacks it. *)
Definition update_boundary (boundary_id : Z)
  (coordinates : option (list (list PyNumber.number)))
  : M (Z * response) :=
  try_except
    (match coordinates with
     | None => ret (400, RError "coordinates field required")
     | Some cs =>
         updated_boundary <- BoundaryService.update boundary_id cs;;
         match updated_boundary with
         | None => ret (404, RError "Boundary not found")
         | Some b => ret (200, RBoundary b)
         end
     end)
    (fun e => ret (500, RError (str_exn e))).

(** [DELETE /api/boundaries/<boundary_id>]. *)
Definition delete_boundary (boundary_id : Z) : M (Z * response) :=
  try_except
    (success <- BoundaryService.delete boundary_id;;
     if success then ret (200, RMessage "Boundary deleted successfully")
     else ret (404, RError "Boundary not found"))
    (fun e => ret (500, RError (str_exn e))).

End BoundaryRoutes.

(** * Small stores used to exercise the services *)
Module Fixtures.
Local Open Scope string_scope.

Definition no_faults : query -> bool := fun _ => false.

(** [layers] and [annotations] are declared [AUTOINCREMENT] (as in
    [migrate_layers_to_map_areas.py] and [test_annotation_validation.py]);
    [l] and [a] are their [sqlite_sequence] entries. *)
Definition sequences (l a : Z) : string -> option Z :=
  fun t => if String.eqb t "layers" then Some l
           else if String.eqb t "annotations" then Some a else None.

Definition own_layer (lid area z created : Z) (editable : bool) : LayerModel.t :=
  LayerModel.mk (Some lid) area None "Streets" "custom" true z editable "{}" created created.

(** A master area 1 with one layer, and its suburb 2 with none. *)
Definition parent_and_child : DB :=
  mkDB [MapModel.mk 1 None "master"; MapModel.mk 2 (Some 1) "suburb"]
       [own_layer 1 1 0 1 true] [] [] 10 no_faults (sequences 1 0).

(** A master area 1 whose layers were created with z = 1 first, z = 0 next. *)
Definition master_two_layers : DB :=
  mkDB [MapModel.mk 1 None "master"]
       [own_layer 1 1 1 1 true; own_layer 2 1 0 2 true] [] [] 10 no_faults (sequences 2 0).


(** [parent_and_child] after layers 2 and 3 were created and deleted: the
    [sqlite_sequence] entry of [layers] is 3. *)
Definition layers_deleted : DB :=
  mkDB (map_areas parent_and_child) (layers parent_and_child) [] [] 10 no_faults
       (sequences 3 0).

(** A layer 1 that is not editable (an inherited copy) and an annotation on it. *)
Definition read_only_layer : DB :=
  mkDB [MapModel.mk 1 None "master"; MapModel.mk 2 (Some 1) "suburb"]
       [LayerModel.mk (Some 1) 2 (Some 7) "Streets" "custom" true 0 false "{}" 1 1]
       []
       [AnnotationModel.mk (Some 1) 1 "marker" "[1, 2]" "{}" "old" 1]
       10 no_faults (sequences 1 1).

(** A suburb 2 whose parent 1 has no boundary yet. *)
Definition parent_without_boundary : DB :=
  mkDB [MapModel.mk 1 None "master"; MapModel.mk 2 (Some 1) "suburb"] [] [] [] 10 no_faults
       (sequences 0 0).

(** A JSON coordinate [[a, b]] of two integers. *)
Definition pair (a b : Z) : list PyNumber.number := [PyNumber.NInt a; PyNumber.NInt b].

Definition triangle : list (list PyNumber.number) :=
  [pair 0 0; pair 1 0; pair 0 1].

(** A new marker annotation for layer 1. *)
Definition marker : AnnotationModel.t :=
  AnnotationModel.mk None 1 "marker" "[3, 4]" "{}" "note" 0.

Definition square : list (list PyNumber.number) :=
  [pair 0 0; pair 4 0; pair 4 4; pair 0 4].

(** The master area 1 has the square boundary 1; its suburb 2 has none. *)
Definition with_boundary : DB :=
  mkDB [MapModel.mk 1 None "master"; MapModel.mk 2 (Some 1) "suburb"] []
       [BoundaryModel.mk (Some 1) 1 square] [] 10 no_faults (sequences 0 0).

(** The square [[[0,0],[0,10],[10,10],[10,0]]] of the specification, as
    JSON integers. *)
Definition square10 : list (list PyNumber.number) :=
  [pair 0 0; pair 0 10; pair 10 10; pair 10 0].

(** [[[0, 2**53 + 1], [1, 2.0**53], [0, 0]]]: an [int] second coordinate
    that [float()] rounds to the [float] second coordinate of the next
    vertex. *)
Definition rounding_polygon : list (list PyNumber.number) :=
  [pair 0 9007199254740993; [PyNumber.NInt 1; PyNumber.NFloat 0x1p53%float]; pair 0 0].

(** [[[10**400, 2], [0, 0], [0, 2]]]: an integer triangle whose intercept
    [10**400 * 1 / 2] does not fit in a float. *)
Definition overflow_triangle : list (list PyNumber.number) :=
  [pair (10 ^ 400) 2; pair 0 0; pair 0 2].

(** The float triangle [(0, 0), (0, 2**997), (2**996, 2**997)]: the product
    [(xj - xi) * (y - yi)] on its first edge overflows to infinity for
    [y = 2**996]. *)
Definition far_triangle : list Geometry.point :=
  [(0, 0); (0, 0x1p997); (0x1p996, 0x1p997)]%float.

End Fixtures.

(** * Claims and the facts they rest on *)

Module FloatFacts.
Import PyFloat.

(** ** IEEE subtraction of two distinct floats is never zero *)

Lemma digits2_pos_size : forall p, digits2_pos p = Pos.size p.
Proof. induction p; simpl; congruence. Qed.

Lemma digits2_iter_xO : forall d m,
  Zpos (digits2_pos (Pos.iter xO m d)) = Zpos (digits2_pos m) + Zpos d.
Proof.
  induction d using Pos.peano_ind; intros m.
  - simpl. rewrite Pos2Z.inj_succ. lia.
  - rewrite Pos.iter_succ. simpl digits2_pos.
    rewrite Pos2Z.inj_succ, IHd, Pos2Z.inj_succ. lia.
Qed.

Lemma iter_pos_iter : forall (A : Type) (f : A -> A) p x,
  iter_pos f p x = Pos.iter f x p.
Proof.
  intros A f p. induction p; intros x; simpl.
  - rewrite IHp, IHp, Pos.iter_swap, Pos.iter_swap. reflexivity.
  - rewrite IHp, IHp. reflexivity.
  - reflexivity.
Qed.

Lemma shr_1_m : forall mrs, 0 <= shr_m mrs ->
  shr_m (shr_1 mrs) = Z.div2 (shr_m mrs) /\ 0 <= shr_m (shr_1 mrs).
Proof.
  intros [m r s] H; simpl in *.
  destruct m as [|[p|p|]|p]; simpl; split; lia.
Qed.

Lemma iter_shr_1_m : forall p mrs, 0 <= shr_m mrs ->
  shr_m (Pos.iter shr_1 mrs p) = Pos.iter Z.div2 (shr_m mrs) p
  /\ 0 <= shr_m (Pos.iter shr_1 mrs p).
Proof.
  induction p using Pos.peano_ind; intros mrs H.
  - simpl. apply shr_1_m. exact H.
  - rewrite !Pos.iter_succ. destruct (IHp mrs H) as [E N].
    destruct (shr_1_m _ N) as [E' N']. split; [rewrite E', E; reflexivity | exact N'].
Qed.

Lemma shr_record_of_loc_m : forall m l, shr_m (shr_record_of_loc m l) = m.
Proof. intros m [|[| |]]; reflexivity. Qed.

Lemma pow2_size_le : forall p, 2 ^ (Zpos (Pos.size p) - 1) <= Zpos p.
Proof.
  intros p. pose proof (Pos.size_le p) as H.
  apply Pos2Z.pos_le_pos in H. rewrite Pos2Z.inj_pow in H.
  replace (Zpos p~0) with (2 * Zpos p) in H by reflexivity.
  replace (Zpos (Pos.size p)) with (Z.succ (Zpos (Pos.size p) - 1)) in H by lia.
  rewrite Z.pow_succ_r in H by lia. lia.
Qed.

(** Shifting a positive mantissa at an exponent at least [emin] keeps it
    positive and never lowers the exponent. *)
Lemma shr_fexp_pos : forall m e l,
  0 < m -> SpecFloat.emin prec emax <= e ->
  0 < shr_m (fst (shr_fexp prec emax m e l)) /\ e <= snd (shr_fexp prec emax m e l).
Proof.
  intros m e l Hm He. unfold shr_fexp, shr.
  destruct m as [|p|p]; try lia. simpl Zdigits2.
  destruct (fexp prec emax (Zpos (digits2_pos p) + e) - e) eqn:En.
  - simpl. rewrite shr_record_of_loc_m. lia.
  - simpl fst; simpl snd. split; [|lia].
    rewrite iter_pos_iter.
    assert (H0 : 0 <= shr_m (shr_record_of_loc (Zpos p) l))
      by (rewrite shr_record_of_loc_m; lia).
    destruct (iter_shr_1_m p0 _ H0) as [E _]. rewrite E, shr_record_of_loc_m.
    change (Pos.iter Z.div2 (Zpos p) p0) with (Z.shiftr (Zpos p) (Zpos p0)).
    rewrite Z.shiftr_div_pow2 by lia.
    apply Z.div_str_pos. split; [lia|].
    unfold fexp in En. rewrite digits2_pos_size in En.
    unfold SpecFloat.emin, prec, emax in *.
    pose proof (pow2_size_le p) as Hp.
    assert (Hq : Zpos p0 <= Zpos (Pos.size p) - 1) by lia.
    apply Z.le_trans with (2 ^ (Zpos (Pos.size p) - 1)); [|exact Hp].
    apply Z.pow_le_mono_r; lia.
  - simpl. rewrite shr_record_of_loc_m. lia.
Qed.

Lemma round_nearest_even_pos : forall m l, 0 < m -> 0 < round_nearest_even m l.
Proof. intros m [|[| |]] H; simpl; try destruct (Z.even m); lia. Qed.

(** The classes of spec floats that compare equal to zero. *)
Lemma binary_round_aux_nonzero : forall s m e l,
  0 < m -> SpecFloat.emin prec emax <= e ->
  is_zero (binary_round_aux prec emax s m e l) = false.
Proof.
  intros s m e l Hm He. unfold binary_round_aux.
  pose proof (shr_fexp_pos m e l Hm He) as [H1 H2].
  destruct (shr_fexp prec emax m e l) as [mrs' e'] eqn:E1. simpl in H1, H2.
  pose proof (round_nearest_even_pos (shr_m mrs') (loc_of_shr_record mrs') H1) as H3.
  pose proof (shr_fexp_pos _ e' loc_Exact H3 ltac:(lia)) as [H4 _].
  destruct (shr_fexp prec emax (round_nearest_even (shr_m mrs') (loc_of_shr_record mrs'))
              e' loc_Exact) as [mrs'' e''] eqn:E2. simpl in H4.
  destruct (shr_m mrs''); try lia. destruct (e'' <=? emax - prec); reflexivity.
Qed.

Lemma binary_round_nonzero : forall s p e,
  SpecFloat.emin prec emax <= e -> is_zero (binary_round prec emax s p e) = false.
Proof.
  intros s p e He. unfold binary_round, shl_align.
  destruct (fexp prec emax (Zpos (digits2_pos p) + e) - e) eqn:Ed.
  - apply binary_round_aux_nonzero; lia.
  - apply binary_round_aux_nonzero; lia.
  - apply binary_round_aux_nonzero; [lia|].
    unfold fexp. apply Z.le_max_r.
Qed.

Lemma valid_finite_canonical : forall s m e,
  valid_binary (S754_finite s m e) = true ->
  fexp prec emax (Zpos (digits2_pos m) + e) = e.
Proof.
  intros s m e H. simpl in H. unfold bounded, canonical_mantissa in H.
  apply andb_prop in H as [H _]. apply Z.eqb_eq. exact H.
Qed.

Lemma canonical_emin : forall m e,
  fexp prec emax (Zpos (digits2_pos m) + e) = e -> SpecFloat.emin prec emax <= e.
Proof. intros m e H. rewrite <- H. unfold fexp. apply Z.le_max_r. Qed.

(** Two canonical mantissas that agree once aligned to the smaller
    exponent are the same float. *)
Lemma align_canonical : forall m1 e1 m2 e2, e1 <= e2 ->
  fexp prec emax (Zpos (digits2_pos m1) + e1) = e1 ->
  fexp prec emax (Zpos (digits2_pos m2) + e2) = e2 ->
  m1 = fst (shl_align m2 e2 e1) -> m1 = m2 /\ e1 = e2.
Proof.
  intros m1 e1 m2 e2 Hle H1 H2 Heq. unfold shl_align in Heq.
  destruct (e1 - e2) eqn:Ed.
  - simpl in Heq. split; [exact Heq | lia].
  - lia.
  - simpl in Heq. subst m1. exfalso.
    rewrite digits2_iter_xO in H1.
    replace (Zpos (digits2_pos m2) + Zpos p + e1) with (Zpos (digits2_pos m2) + e2) in H1 by lia.
    lia.
Qed.

Lemma shl_align_self : forall m e, shl_align m e e = (m, e).
Proof. intros m e. unfold shl_align. rewrite Z.sub_diag. reflexivity. Qed.

Lemma SFltb_zero_sign : forall Y s1 s2,
  SFltb Y (S754_zero s1) = SFltb Y (S754_zero s2).
Proof. intros [] s1 s2; reflexivity. Qed.

Lemma SFeqb_zero_false : forall f, is_zero f = false ->
  SFeqb f (S754_zero false) = false.
Proof. intros [| [] | | [] m e] H; simpl in H; try discriminate; reflexivity. Qed.

(** Subtracting two finite floats gives zero only when they are the
    same float. *)
Lemma SFsub_finite_zero : forall sx mx ex sz mz ez,
  valid_binary (S754_finite sx mx ex) = true ->
  valid_binary (S754_finite sz mz ez) = true ->
  SFeqb (SF64sub (S754_finite sz mz ez) (S754_finite sx mx ex)) (S754_zero false) = true ->
  sx = sz /\ mx = mz /\ ex = ez.
Proof.
  intros sx mx ex sz mz ez HX HZ H.
  pose proof (valid_finite_canonical _ _ _ HX) as CX.
  pose proof (valid_finite_canonical _ _ _ HZ) as CZ.
  unfold SF64sub, SFsub in H. cbv beta iota zeta in H.
  assert (Hm : SpecFloat.emin prec emax <= Z.min ez ex)
    by (apply Z.min_glb; eapply canonical_emin; eassumption).
  destruct (cond_Zopp sz _ - cond_Zopp sx _) as [|p|p] eqn:Hs.
  2, 3: rewrite SFeqb_zero_false in H by (apply binary_round_nonzero; exact Hm);
        discriminate.
  clear H.
  destruct (Z.le_gt_cases ez ex) as [Hle|Hgt].
  - rewrite Z.min_l in Hs by exact Hle. rewrite shl_align_self in Hs. simpl fst in Hs.
    destruct (shl_align mx ex ez) as [a ea] eqn:Ea. simpl fst in Hs.
    assert (sx = sz /\ mz = a) as [-> ->]
      by (destruct sx, sz; simpl cond_Zopp in Hs; split; try reflexivity; lia).
    destruct (align_canonical a ez mx ex Hle CZ CX) as [-> ->];
      [rewrite Ea; reflexivity | auto].
  - rewrite Z.min_r in Hs by lia. rewrite shl_align_self in Hs. simpl fst in Hs.
    destruct (shl_align mz ez ex) as [a ea] eqn:Ea. simpl fst in Hs.
    assert (sx = sz /\ mx = a) as [-> ->]
      by (destruct sx, sz; simpl cond_Zopp in Hs; split; try reflexivity; lia).
    destruct (align_canonical a ex mz ez ltac:(lia) CX CZ) as [-> ->];
      [rewrite Ea; reflexivity | auto].
Qed.

(** If [Z - X] rounds to zero, [X] and [Z] compare alike with every float. *)
Lemma SFsub_zero_same_order : forall X Z,
  valid_binary X = true -> valid_binary Z = true ->
  SFeqb (SF64sub Z X) (S754_zero false) = true ->
  forall Y, SFltb Y X = SFltb Y Z.
Proof.
  intros X Z HX HZ H Y.
  destruct X as [sx|sx| |sx mx ex]; destruct Z as [sz|sz| |sz mz ez];
    try (destruct sx, sz; simpl in H; try discriminate; apply SFltb_zero_sign; fail);
    try (simpl in H; try destruct sx; try destruct sz; discriminate).
  destruct (SFsub_finite_zero sx mx ex sz mz ez HX HZ H) as [-> [-> ->]].
  reflexivity.
Qed.

Lemma Prim2SF_zero : Prim2SF 0%float = S754_zero false.
Proof. vm_compute. reflexivity. Qed.

(** When exactly one of [yi > y] and [yj > y] holds, [yj - yi == 0.0] is
    false in binary64: the guarded division never divides by zero. *)
Lemma guard_divisor_nonzero : forall y yi yj : float,
  py_ne_bool (py_gt yi y) (py_gt yj y) = true -> (yj - yi =? 0)%float = false.
Proof.
  intros y yi yj H. unfold py_ne_bool, py_gt in H.
  rewrite FloatAxioms.eqb_spec, sub_spec, Prim2SF_zero.
  destruct (SFeqb _ _) eqn:E; [|reflexivity]. exfalso.
  rewrite !ltb_spec in H.
  rewrite (SFsub_zero_same_order (Prim2SF yi) (Prim2SF yj)
             (Prim2SF_valid yi) (Prim2SF_valid yj) E (Prim2SF y)) in H.
  destruct (SFltb _ _); discriminate.
Qed.

End FloatFacts.

Module GeometryFacts.
Import PyFloat FloatFacts Geometry GeometrySpec.

Lemma edge_intersect_code_crossing : forall x y vi vj,
  edge_intersect x y vi vj = Ret (code_crossing x y vi vj).
Proof.
  intros x y [xi yi] [xj yj]. unfold edge_intersect, code_crossing.
  destruct (py_ne_bool (py_gt yi y) (py_gt yj y)) eqn:G; [|reflexivity].
  unfold py_div. rewrite (guard_divisor_nonzero _ _ _ G). reflexivity.
Qed.

Lemma odd_filter_cons {B} (f : B -> bool) (e : B) (l : list B) :
  Nat.odd (List.length (filter f (e :: l))) =
  xorb (f e) (Nat.odd (List.length (filter f l))).
Proof.
  simpl. destruct (f e); simpl; [|reflexivity].
  rewrite Nat.odd_succ, <- Nat.negb_odd. reflexivity.
Qed.

Lemma pip_loop_parity : forall x y rest vj inside,
  pip_loop x y vj rest inside =
  Ret (xorb inside
         (Nat.odd (List.length
            (filter (fun e => code_crossing x y (fst e) (snd e))
                    (combine rest (vj :: removelast rest)))))).
Proof.
  intros x y rest. induction rest as [|vi rest IH]; intros vj inside.
  - simpl. rewrite xorb_false_r. reflexivity.
  - cbn [pip_loop]. rewrite edge_intersect_code_crossing.
    destruct rest as [|v rest'].
    + simpl. destruct (code_crossing x y vi vj); simpl;
        [rewrite xorb_true_r|rewrite xorb_false_r]; reflexivity.
    + change (removelast (vi :: v :: rest')) with (vi :: removelast (v :: rest')).
      change (combine (vi :: v :: rest') (vj :: vi :: removelast (v :: rest')))
        with ((vi, vj) :: combine (v :: rest') (vi :: removelast (v :: rest'))).
      rewrite odd_filter_cons. simpl fst; simpl snd.
      destruct (code_crossing x y vi vj) eqn:C; rewrite IH.
      * destruct inside, (Nat.odd _); reflexivity.
      * rewrite xorb_false_l. reflexivity.
Qed.

Lemma point_in_polygon_parity : forall pt polygon,
  _point_in_polygon pt polygon = Ret (Nat.odd (crossings pt polygon)).
Proof.
  intros [x y] polygon. unfold _point_in_polygon, crossings, edges.
  destruct polygon as [|v rest]; [reflexivity|].
  rewrite pip_loop_parity, xorb_false_l. reflexivity.
Qed.

Lemma In_last {B} : forall (l : list B) d, l <> [] -> In (last l d) l.
Proof.
  induction l as [|a l IH]; intros d H; [congruence|].
  destruct l as [|b l']; [left; reflexivity|].
  right. apply IH. discriminate.
Qed.

Lemma In_removelast {B} : forall (l : list B) a, In a (removelast l) -> In a l.
Proof.
  induction l as [|b l IH]; intros a H; [exact H|].
  destruct l as [|c l']; [contradiction|].
  destruct H as [H|H]; [left; exact H|right; apply IH, H].
Qed.

Lemma In_edges : forall polygon vi vj,
  In (vi, vj) (edges polygon) -> In vi polygon /\ In vj polygon.
Proof.
  intros polygon vi vj H. unfold edges in H.
  destruct polygon as [|v rest]; [contradiction|].
  split; [eapply in_combine_l; exact H|].
  apply in_combine_r in H. destruct H as [H|H].
  - subst vj. apply In_last. discriminate.
  - apply In_removelast, H.
Qed.

Lemma filter_none {B} (f : B -> bool) : forall l,
  (forall e, In e l -> f e = false) -> filter f l = [].
Proof.
  induction l as [|e l IH]; intros H; [reflexivity|].
  simpl. rewrite (H e (or_introl eq_refl)). apply IH.
  intros e' He'. apply H. right. exact He'.
Qed.

(** No edge passes the between-test when no vertex pair straddles [y]. *)
Lemma crossings_zero : forall x y polygon,
  (forall vi vj, In vi polygon -> In vj polygon ->
     py_ne_bool (py_gt (snd vi) y) (py_gt (snd vj) y) = false) ->
  crossings (x, y) polygon = 0%nat.
Proof.
  intros x y polygon H. unfold crossings.
  rewrite filter_none; [reflexivity|].
  intros [[xi yi] [xj yj]] He. apply In_edges in He as [Hi Hj].
  specialize (H _ _ Hi Hj). simpl in H |- *. rewrite H. reflexivity.
Qed.

End GeometryFacts.

(** ** [_point_in_polygon] on JSON coordinates *)
Module PyGeometryFacts.
Import PyNumber PyGeometry.

(** On two floats, the JSON operations are the float ones. *)
Lemma edge_intersect_floats : forall x y xi yi xj yj,
  PyGeometry.edge_intersect (NFloat x) (NFloat y) (NFloat xi, NFloat yi) (NFloat xj, NFloat yj) =
  Geometry.edge_intersect x y (xi, yi) (xj, yj).
Proof.
  intros. unfold PyGeometry.edge_intersect, Geometry.edge_intersect, gt, lt, PyFloat.py_gt.
  destruct (PyFloat.py_ne_bool _ _); [|reflexivity].
  cbn. unfold PyFloat.py_div. destruct (_ =? 0)%float; reflexivity.
Qed.

Lemma pip_loop_floats : forall x y rest vj inside,
  PyGeometry.pip_loop (NFloat x) (NFloat y) (of_point vj) (map of_point rest) inside =
  Geometry.pip_loop x y vj rest inside.
Proof.
  intros x y rest. induction rest as [|[xi yi] rest IH]; intros [xj yj] inside; [reflexivity|].
  cbn [map PyGeometry.pip_loop Geometry.pip_loop]. unfold of_point at 1 2. cbn [fst snd].
  cbn [unpack2 obind]. rewrite edge_intersect_floats.
  destruct (Geometry.edge_intersect x y (xi, yi) (xj, yj)) as [[|]|e]; cbn [obind];
    [apply (IH (xi, yi)) | apply (IH (xi, yi)) | reflexivity].
Qed.

Lemma last_map {A B} (f : A -> B) : forall l d, last (map f l) (f d) = f (last l d).
Proof.
  induction l as [|a l IH]; intros d; [reflexivity|].
  destruct l as [|b l']; [reflexivity|]. apply IH.
Qed.

(** A polygon of float pairs is classified by the float kernel [Geometry]. *)
Lemma point_in_polygon_floats : forall x y polygon,
  PyGeometry._point_in_polygon (NFloat x, NFloat y) (map of_point polygon) =
  Geometry._point_in_polygon (x, y) polygon.
Proof.
  intros x y [|v rest]; [reflexivity|].
  cbn [PyGeometry._point_in_polygon Geometry._point_in_polygon map].
  rewrite <- (map_cons of_point v rest), last_map. apply pip_loop_floats.
Qed.

(** An edge whose ends are both above, or both not above, the point's
    second coordinate is not crossed, and nothing is computed. *)
Lemma pip_loop_same_side : forall x y c rest vj inside,
  (forall v, In v (vj :: rest) -> exists a b, v = [a; b] /\ gt b y = c) ->
  PyGeometry.pip_loop x y vj rest inside = Ret inside.
Proof.
  intros x y c rest. induction rest as [|vi rest IH]; intros vj inside H; [reflexivity|].
  destruct (H vj (or_introl eq_refl)) as [aj [bj [-> Hj]]].
  destruct (H vi (or_intror (or_introl eq_refl))) as [ai [bi [-> Hi]]].
  cbn [PyGeometry.pip_loop unpack2 obind]. unfold PyGeometry.edge_intersect.
  rewrite Hi, Hj. unfold PyFloat.py_ne_bool. rewrite eqb_reflx. cbn [negb obind].
  apply IH. intros v [Hv|Hv]; [subst v; eauto|]. apply H. right. right. exact Hv.
Qed.

Lemma point_in_polygon_same_side : forall x y c polygon,
  (forall v, In v polygon -> exists a b, v = [a; b] /\ gt b y = c) ->
  PyGeometry._point_in_polygon (x, y) polygon = Ret false.
Proof.
  intros x y c [|v rest] H; [reflexivity|].
  cbn [PyGeometry._point_in_polygon]. apply (pip_loop_same_side x y c).
  intros u [Hu|Hu]; apply H; [subst u; apply GeometryFacts.In_last; discriminate | exact Hu].
Qed.

(** On [overflow_triangle] the edge from [[0, 0]] to [[10**400, 2]] is
    crossed by every point [(x, 1)], and its intercept raises before [x] is
    compared. *)
Lemma overflow_triangle_raises : forall x : Z,
  PyGeometry._point_in_polygon (NInt x, NInt 1) Fixtures.overflow_triangle =
  Raise (OverflowError "integer division result too large for a float").
Proof. intros x. vm_compute. reflexivity. Qed.

End PyGeometryFacts.

Module GeometryClaims.
Import PyFloat FloatFacts Geometry GeometrySpec GeometryFacts PyNumber.

(** C10 (counterexample): on JSON coordinates mixing [int] and [float],
    the guard compares exactly while the subtraction rounds the [int]: on
    [rounding_polygon] the point [(0.5, 2.0**53)] passes the guard for the
    edge from [[0, 2**53 + 1]] to [[1, 2.0**53]], whose divisor
    [(2**53 + 1) - 2.0**53] is [0.0], and the call raises
    [ZeroDivisionError]; with integers past the float range the intercept
    raises [OverflowError]. *)
Lemma point_in_polygon_json_counterexample :
  PyGeometry._point_in_polygon (NFloat 0.5, NFloat 0x1p53)%float Fixtures.rounding_polygon =
    Raise ZeroDivisionError /\
  PyGeometry._point_in_polygon (NInt 0, NInt 1) Fixtures.overflow_triangle =
    Raise (OverflowError "integer division result too large for a float") /\
  ~ (forall pt polygon, exists inside, PyGeometry._point_in_polygon pt polygon = Ret inside).
Proof.
  split; [vm_compute; reflexivity|]. split; [vm_compute; reflexivity|].
  intros H. destruct (H (NFloat 0.5, NFloat 0x1p53)%float Fixtures.rounding_polygon)
    as [b Hb].
  vm_compute in Hb. discriminate Hb.
Qed.

(** C10 (amended): on float coordinates [_point_in_polygon] never divides
    by zero and never raises: under the guard [(yi > y) != (yj > y)] the
    divisor [yj - yi] is not [0.0] (in binary64, distinct values have a
    nonzero difference), and the function returns a boolean for every
    point and every polygon of float pairs, horizontal edges included. *)
Theorem point_in_polygon_total_floats :
  (forall y yi yj : float,
     py_ne_bool (py_gt yi y) (py_gt yj y) = true -> (yj - yi =? 0)%float = false) /\
  (forall (x y : float) (polygon : list point),
     exists inside,
       PyGeometry._point_in_polygon (NFloat x, NFloat y) (map PyGeometry.of_point polygon) =
         Ret inside).
Proof.
  split.
  - exact guard_divisor_nonzero.
  - intros x y polygon. eexists.
    rewrite PyGeometryFacts.point_in_polygon_floats. apply point_in_polygon_parity.
Qed.

(** C8 (counterexample): the per-edge toggle is not the one the
    specification words, with the latitude in the between-test: for the
    point (lat 5, lon 0) and the edge from (10, 1) to (10, -1) the code
    toggles, while both ends of the edge have latitude 10, so the worded
    test does not. *)
Lemma edge_test_latitude_counterexample :
  ~ (forall (x y : float) (vi vj : point),
       edge_intersect x y vi vj = Ret (spec_crossing x y vi vj)).
Proof.
  intros H. specialize (H 5%float 0%float (10, -1)%float (10, 1)%float).
  vm_compute in H. discriminate H.
Qed.

(** C8 (amended): for every edge [(polygon[i-1], polygon[i])] the counter
    toggles exactly when the point's second coordinate (the longitude of a
    [lat, lon] pair) lies strictly between the edge's second coordinates and
    the intercept computed on the first coordinates exceeds the point's first
    coordinate (the latitude); the result is the parity of the number of such
    edges. *)
Theorem edge_test_longitude :
  (forall (x y : float) (vi vj : point),
     edge_intersect x y vi vj = Ret (code_crossing x y vi vj)) /\
  (forall (pt : point) (polygon : list point),
     _point_in_polygon pt polygon = Ret (Nat.odd (crossings pt polygon))).
Proof.
  split; [exact edge_intersect_code_crossing | exact point_in_polygon_parity].
Qed.

(** C7 (counterexample): the classification is not exact.
    - The point (-6.7, 4.5) lies strictly inside the triangle (-6, 8),
      (-8, -2), (-7, 5) (exact orientation tests on the values the floats
      denote), yet rounding in the intercept puts it on the wrong side of
      the edge it is close to and [_point_in_polygon] answers false.
    - Every point [(x, 2**996)] with [x > 2**1000], more than 15 widths of
      [far_triangle] beyond its bounding box, is answered true: the
      intercept of the edge from [(0x1p996, 0x1p997)] to [(0, 0)]
      overflows to infinity.
    - Points [(x, 1)] with [x] as far as one likes past the bounding box of
      the integer [overflow_triangle] make the call raise [OverflowError]. *)
Lemma point_in_polygon_not_exact_counterexample :
  ~ (forall a b c p : point,
       strictly_inside_triangle a b c p = true ->
       PyGeometry._point_in_polygon (NFloat (fst p), NFloat (snd p))
         (map PyGeometry.of_point [a; b; c]) = Ret true) /\
  ~ (forall x : float, (0x1p1000 <? x)%float = true ->
       PyGeometry._point_in_polygon (NFloat x, NFloat 0x1p996)%float
         (map PyGeometry.of_point Fixtures.far_triangle) = Ret false) /\
  ~ (exists K : Z, forall x : Z, 10 ^ 400 + K * 10 ^ 400 < x ->
       PyGeometry._point_in_polygon (NInt x, NInt 1) Fixtures.overflow_triangle = Ret false).
Proof.
  split; [|split].
  - intros H.
    assert (Hin : strictly_inside_triangle (-6, 8)%float (-8, -2)%float (-7, 5)%float
                    (-0x1.acccccccccccdp+2, 4.5)%float = true)
      by (vm_compute; reflexivity).
    apply H in Hin. vm_compute in Hin. discriminate Hin.
  - intros H. specialize (H 0x1p1010%float (eq_refl true)).
    vm_compute in H. discriminate H.
  - intros [K HK].
    set (N := 10 ^ 400) in HK.
    assert (HN : 0 < N) by (subst N; apply Z.pow_pos_nonneg; lia).
    assert (HKN : K * N <= Z.abs K * N) by (apply Z.mul_le_mono_nonneg_r; lia).
    specialize (HK (N + Z.abs K * N + 1) ltac:(lia)).
    rewrite PyGeometryFacts.overflow_triangle_raises in HK. discriminate HK.
Qed.

(** C7 (amended): for every polygon of [[a, b]] pairs, a point whose second
    coordinate (the longitude, for [lat, lon] input) is at least every
    vertex's second coordinate, or below every vertex's, is classified
    outside, whatever the numbers; on the square
    [[[0,0],[0,10],[10,10],[10,0]]] the point (5, 5) is inside and
    (20, 20) outside, as integers and as floats. *)
Theorem point_in_polygon_outside_band :
  (forall (polygon : list (list number)) (x y : number),
     (forall v, In v polygon -> exists a b, v = [a; b] /\ gt b y = false) ->
     PyGeometry._point_in_polygon (x, y) polygon = Ret false) /\
  (forall (polygon : list (list number)) (x y : number),
     (forall v, In v polygon -> exists a b, v = [a; b] /\ gt b y = true) ->
     PyGeometry._point_in_polygon (x, y) polygon = Ret false) /\
  PyGeometry._point_in_polygon (NInt 5, NInt 5) Fixtures.square10 = Ret true /\
  PyGeometry._point_in_polygon (NInt 20, NInt 20) Fixtures.square10 = Ret false /\
  PyGeometry._point_in_polygon (NFloat 5, NFloat 5)%float (map PyGeometry.of_point square) =
    Ret true /\
  PyGeometry._point_in_polygon (NFloat 20, NFloat 20)%float (map PyGeometry.of_point square) =
    Ret false.
Proof.
  split; [|split; [|repeat split; vm_compute; reflexivity]];
    intros polygon x y H; exact (PyGeometryFacts.point_in_polygon_same_side x y _ polygon H).
Qed.

End GeometryClaims.

Module RingClaims.
Import Ring.

(** C9: for every non-empty boundary [c :: cs], the ring swaps each
    [lat, lon] pair to [lon, lat] and appends the swapped first point
    exactly when the last swapped point differs from it (Python's [!=]
    on the pair); the ring then starts with the swapped first point and ends
    with it or with a point equal to it; on [[1,2],[3,4],[5,6]] the ring is
    [[2,1],[4,3],[6,5],[2,1]]. *)
Theorem to_geojson_closes_ring :
  (forall (A : Type) (py_eq : A -> A -> bool) (c : A * A) (cs : list (A * A)),
     let g := map (fun coord => (snd coord, fst coord)) (c :: cs) in
     let first := (snd c, fst c) in
     to_geojson_coords py_eq (c :: cs) =
       Ret (g ++ (if pair_ne py_eq first (last g first) then [first] else [])) /\
     (forall ring, to_geojson_coords py_eq (c :: cs) = Ret ring ->
        hd_error ring = Some first /\
        (last ring first = first \/ pair_ne py_eq first (last ring first) = false))) /\
  to_geojson_coords Z.eqb [(1, 2); (3, 4); (5, 6)] =
    Ret [(2, 1); (4, 3); (6, 5); (2, 1)].
Proof.
  split; [|reflexivity].
  intros A py_eq c cs g first.
  assert (E : to_geojson_coords py_eq (c :: cs) =
    Ret (g ++ (if pair_ne py_eq first (last g first) then [first] else []))).
  { unfold to_geojson_coords. subst g first. simpl map. cbv beta iota.
    match goal with |- context [if ?b then _ else _] => destruct b end;
      [reflexivity|rewrite app_nil_r; reflexivity]. }
  assert (G : exists rest, g = first :: rest) by (eexists; reflexivity).
  clearbody g first.
  split; [exact E|].
  intros ring Hr. rewrite E in Hr. injection Hr as <-.
  split.
  - destruct G as [rest ->]. reflexivity.
  - destruct (pair_ne py_eq first (last g first)) eqn:N.
    + left. rewrite last_last. reflexivity.
    + right. rewrite app_nil_r. exact N.
Qed.

End RingClaims.

Module LayerFacts.
Import LayerModel LayerService.

Ltac run := unfold bind, ret, raise, lift, try_except, db_exec; simpl.

(** The parent lookup never yields a parent: [getattr] on the row finds no
    [parent_id] attribute. *)
Lemma getattr_parent_id : forall column, getattr_row "parent_id" column None = None.
Proof. reflexivity. Qed.

Lemma inherited_empty : forall read map_id db,
  _get_inherited_layers read map_id db = (db, Ret []).
Proof.
  intros read map_id db. unfold _get_inherited_layers. run.
  destruct (fails db (QAreaParent map_id)); [reflexivity|].
  destruct (option_map MapModel.parent_id (find_area (map_areas db) map_id)) as [column|];
    [|reflexivity].
  destruct (negb (truthy column)); reflexivity.
Qed.

Lemma own_layers_eq : forall map_id db,
  _list_own_layers map_id db =
  (db, Ret (if fails db (QOwnLayers map_id) then []
            else sort_by le_z_created (filter (is_own_layer map_id) (layers db)))).
Proof.
  intros map_id db. unfold _list_own_layers. run.
  destruct (fails db (QOwnLayers map_id)); reflexivity.
Qed.

Lemma read_map_eq : forall f map_id db, map_id <> 0 ->
  read_map (S f) map_id db =
  (db, Ret (Some (sort_by le_z
    ((if fails db (QOwnLayers map_id) then []
      else sort_by le_z_created (filter (is_own_layer map_id) (layers db))) ++ [])))).
Proof.
  intros f map_id db Hz. cbn [read_map].
  rewrite <- Z.eqb_neq in Hz. rewrite Hz.
  unfold bind. rewrite own_layers_eq, inherited_empty. reflexivity.
Qed.

Section Sorting.
Variable A : Type.
Variable le : A -> A -> bool.
Hypothesis le_total : forall a b, le a b = false -> le b a = true.

Let R := fun a b => le a b = true.

Lemma insert_by_sorted : forall x l, Sorted R l -> Sorted R (insert_by le x l).
Proof.
  intros x l. induction l as [|y l IH]; intros H; simpl.
  - constructor; constructor.
  - destruct (le x y) eqn:E.
    + constructor; [exact H|constructor; exact E].
    + apply Sorted_inv in H as [H1 H2]. constructor; [apply IH, H1|].
      destruct l as [|z l']; simpl.
      * constructor. apply le_total, E.
      * destruct (le x z); constructor; [apply le_total, E|].
        inversion H2; assumption.
Qed.

Lemma sort_by_sorted : forall l, Sorted R (sort_by le l).
Proof.
  induction l as [|x l IH]; simpl; [constructor|]. apply insert_by_sorted, IH.
Qed.

Lemma insert_by_perm : forall x l, Permutation (insert_by le x l) (x :: l).
Proof.
  intros x l. induction l as [|y l IH]; simpl; [reflexivity|].
  destruct (le x y); [reflexivity|].
  rewrite IH. apply perm_swap.
Qed.

Lemma sort_by_perm : forall l, Permutation (sort_by le l) l.
Proof.
  induction l as [|x l IH]; simpl; [reflexivity|].
  rewrite insert_by_perm, IH. reflexivity.
Qed.

(** Sorting a list that is already sorted leaves it as it is. *)
Lemma sort_by_id : forall l, Sorted R l -> sort_by le l = l.
Proof.
  induction l as [|x l IH]; intros H; [reflexivity|].
  apply Sorted_inv in H as [H1 H2]. simpl. rewrite (IH H1).
  destruct l as [|y l']; [reflexivity|].
  inversion H2 as [|? ? Hxy]; subst. simpl. unfold R in Hxy. rewrite Hxy. reflexivity.
Qed.
End Sorting.

Lemma le_z_created_total : forall a b,
  le_z_created a b = false -> le_z_created b a = true.
Proof.
  intros a b. unfold le_z_created.
  destruct (Z.ltb_spec (LayerModel.z_index a) (LayerModel.z_index b));
  destruct (Z.eqb_spec (LayerModel.z_index a) (LayerModel.z_index b));
  destruct (Z.leb_spec (LayerModel.created_at a) (LayerModel.created_at b));
  destruct (Z.ltb_spec (LayerModel.z_index b) (LayerModel.z_index a));
  destruct (Z.eqb_spec (LayerModel.z_index b) (LayerModel.z_index a));
  destruct (Z.leb_spec (LayerModel.created_at b) (LayerModel.created_at a));
  simpl; intros; try reflexivity; try discriminate; lia.
Qed.

Lemma le_z_created_le_z : forall a b, le_z_created a b = true -> le_z a b = true.
Proof.
  intros a b. unfold le_z_created, le_z. rewrite orb_true_iff, andb_true_iff.
  rewrite Z.ltb_lt, Z.eqb_eq, Z.leb_le, Z.leb_le. lia.
Qed.

Lemma Sorted_weaken {B} (R1 R2 : B -> B -> Prop) :
  (forall a b, R1 a b -> R2 a b) -> forall l, Sorted R1 l -> Sorted R2 l.
Proof.
  intros Himp l H. induction H as [|a l Hs IH Hh]; constructor; [exact IH|].
  destruct Hh; constructor. apply Himp. assumption.
Qed.

(** The stack a non-zero area resolves to: its own layers in SQL order,
    re-sorted by [z_index] alone. *)
Lemma sort_own_layers : forall l,
  sort_by le_z (sort_by le_z_created l ++ []) = sort_by le_z_created l.
Proof.
  intros l. rewrite app_nil_r. apply sort_by_id.
  apply (Sorted_weaken (fun a b => le_z_created a b = true)).
  - exact le_z_created_le_z.
  - apply sort_by_sorted, le_z_created_total.
Qed.

Lemma read_layer_eq : forall layer_id db, layer_id <> 0 ->
  fails db (QLayerById layer_id) = false ->
  read_layer layer_id db = (db, Ret (find_layer (layers db) layer_id)).
Proof.
  intros layer_id db Hz Hf. unfold read_layer.
  rewrite <- Z.eqb_neq in Hz. rewrite Hz. run. rewrite Hf. reflexivity.
Qed.

Lemma fold_set_field_keeps : forall fields l,
  id (fold_left set_field fields l) = id l /\
  is_editable (fold_left set_field fields l) = is_editable l.
Proof.
  induction fields as [|u fields IH]; intros l; simpl; [split; reflexivity|].
  destruct (IH (set_field l u)) as [E1 E2]. rewrite E1, E2.
  destruct u; split; reflexivity.
Qed.

Lemma update_rows_keeps : forall db layer_id fields,
  map (fun l => (id l, is_editable l)) (layers (update_rows db layer_id fields)) =
  map (fun l => (id l, is_editable l)) (layers db).
Proof.
  intros db layer_id fields. unfold update_rows. simpl. rewrite map_map.
  apply map_ext. intros l. destruct (opt_eqb (id l) layer_id); [|reflexivity].
  destruct (fold_set_field_keeps (map (inline_timestamp (clock db)) fields) l) as [E1 E2]. simpl. rewrite E1, E2. reflexivity.
Qed.

End LayerFacts.

Module LayerClaims.
Import LayerModel LayerService LayerFacts Fixtures.

(** C1 (divergence): resolution never materialises an inherited layer.
    [_get_inherited_layers] reads the parent row and then takes
    [getattr(parent_row, 'parent_id', None)], which is [None] for an
    [sqlite3.Row], so it returns [[]] and writes nothing, for every area;
    for the suburb 2 of [parent_and_child], whose parent 1 has one layer,
    the resolved stack is empty where the specification expects one
    inherited, read-only copy. *)
Theorem inherited_copies_never_created :
  (forall (read : Z -> M (option (list LayerModel.t))) (map_id : Z) (db : DB),
     _get_inherited_layers read map_id db = (db, Ret [])) /\
  read_map 10 2 parent_and_child = (parent_and_child, Ret (Some [])).
Proof.
  split; [exact inherited_empty|vm_compute; reflexivity].
Qed.

(** C4: whenever [read(map_id=...)] returns a stack, it is a reordering of
    the own layers followed by the inherited layers (as the two helpers
    return them) and it is sorted by [z_index], ties by [created_at], both
    ascending; the store is unchanged. *)
Theorem read_map_stack_order : forall (fuel : nat) (map_id : Z) (db db' : DB)
  (stack : list LayerModel.t),
  read_map fuel map_id db = (db', Ret (Some stack)) ->
  db' = db /\
  exists own inherited,
    _list_own_layers map_id db = (db, Ret own) /\
    _get_inherited_layers (read_map (pred fuel)) map_id db = (db, Ret inherited) /\
    Permutation stack (own ++ inherited) /\
    Sorted (fun a b => le_z_created a b = true) stack.
Proof.
  intros fuel map_id db db' stack H.
  destruct fuel as [|f]; [discriminate H|].
  destruct (Z.eq_dec map_id 0) as [E|Hz].
  - subst map_id. discriminate H.
  - rewrite read_map_eq in H by exact Hz. injection H as <- <-.
    split; [reflexivity|].
    set (own := if fails db (QOwnLayers map_id) then []
                else sort_by le_z_created (filter (is_own_layer map_id) (layers db))).
    exists own, []. split; [apply own_layers_eq|]. split; [apply inherited_empty|].
    assert (S : sort_by le_z (own ++ []) = own).
    { subst own. destruct (fails db (QOwnLayers map_id)); [reflexivity|].
      apply sort_own_layers. }
    rewrite S. split; [rewrite app_nil_r; reflexivity|].
    subst own. destruct (fails db (QOwnLayers map_id)); [constructor|].
    apply sort_by_sorted, le_z_created_total.
Qed.



(** C3: with a working store and a non-zero id, [update] and [delete] of a
    missing layer give [None] and [False] and change nothing; of a
    non-editable layer they raise [ValueError] with the read-only message
    and change nothing; of an editable layer they succeed. No [update]
    changes any layer's [is_editable] flag (nor its id): the flag is not
    among the fields it copies. *)
Theorem layer_mutation_guard : forall (db : DB) (layer_id : Z) (updates : list layer_update),
  layer_id <> 0 -> (forall q, fails db q = false) ->
  match find_layer (layers db) layer_id with
  | None => update layer_id updates db = (db, Ret None) /\
            delete layer_id db = (db, Ret false)
  | Some l =>
      if is_editable l then
        (exists db' r, update layer_id updates db = (db', Ret r)) /\
        (exists db', delete layer_id db = (db', Ret true))
      else
        update layer_id updates db =
          (db, Raise (ValueError "Cannot update inherited layer. Inherited layers are read-only.")) /\
        delete layer_id db =
          (db, Raise (ValueError "Cannot delete inherited layer. Inherited layers are read-only."))
  end /\
  (forall db' r, update layer_id updates db = (db', r) ->
     map (fun l => (id l, is_editable l)) (layers db') =
     map (fun l => (id l, is_editable l)) (layers db)).
Proof.
  intros db layer_id updates Hz Hf.
  assert (U : update layer_id updates db =
    match find_layer (layers db) layer_id with
    | None => (db, Ret None)
    | Some l =>
        if is_editable l then
          let db2 := update_rows db layer_id (all_fields updates) in
          (db2, Ret (find_layer (layers db2) layer_id))
        else (db, Raise (ValueError "Cannot update inherited layer. Inherited layers are read-only."))
    end).
  { unfold update, bind. rewrite read_layer_eq by auto.
    destruct (find_layer (layers db) layer_id) as [l|]; [|reflexivity].
    destruct (is_editable l); [|reflexivity]. simpl.
    unfold db_exec. rewrite Hf. apply read_layer_eq; [exact Hz|].
    unfold update_rows, set_layers. simpl. apply Hf. }
  split.
  - rewrite U. unfold delete, bind. rewrite read_layer_eq by auto.
    destruct (find_layer (layers db) layer_id) as [l|]; [|split; reflexivity].
    destruct (is_editable l); simpl.
    + split; [do 2 eexists; reflexivity|].
      eexists. unfold db_exec. rewrite Hf. reflexivity.
    + split; reflexivity.
  - intros db' r H. rewrite U in H.
    destruct (find_layer (layers db) layer_id) as [l|];
      [|injection H as <- _; reflexivity].
    destruct (is_editable l); injection H as <- _; [|reflexivity].
    apply update_rows_keeps.
Qed.

End LayerClaims.

Module AnnotationClaims.
Import AnnotationModel AnnotationService Fixtures.

(** C6 (counterexample): updating an annotation is not rejected when its
    layer is read-only. In [read_only_layer], annotation 1 sits on layer 1,
    whose [is_editable] is false, and [update] rewrites its content. *)
Lemma annotation_update_guard_counterexample :
  ~ (forall (db : DB) (annotation_id : Z) (updates : list annotation_update)
            (a : AnnotationModel.t) (l : LayerModel.t),
       find_annotation (annotations db) annotation_id = Some a ->
       LayerService.find_layer (layers db) (layer_id a) = Some l ->
       LayerModel.is_editable l = false ->
       exists e, snd (update annotation_id updates db) = Raise e).
Proof.
  intros H.
  destruct (H read_only_layer 1 [UContent "new"%string] _ _ eq_refl eq_refl eq_refl) as [e He].
  vm_compute in He. discriminate He.
Qed.

(** C6 (divergence): [create] is rejected with a [ValueError] and leaves
    the store unchanged when the target layer does not exist or is not
    editable, but [update] does not consult the owning layer: with a
    working store it applies the copied fields ([coordinates], [style],
    [content]; a value whose [upper()] is [CURRENT_TIMESTAMP] is written as
    the current time) to the annotation whatever its layer's [is_editable]
    flag. *)
Theorem annotation_editability :
  (forall (db : DB) (annotation : AnnotationModel.t),
     (LayerService.find_layer (layers db) (layer_id annotation) = None \/
      exists l, LayerService.find_layer (layers db) (layer_id annotation) = Some l /\
                LayerModel.is_editable l = false) ->
     exists msg, create annotation db = (db, Raise (ValueError msg))) /\
  (forall (db : DB) (annotation_id : Z) (updates : list annotation_update),
     (forall q, fails db q = false) -> annotation_id <> 0 ->
     update annotation_id updates db =
       (update_rows db annotation_id (all_fields updates),
        Ret (find_annotation (annotations (update_rows db annotation_id (all_fields updates)))
               annotation_id))).
Proof.
  split.
  - intros db annotation H. unfold create, bind, try_except, db_exec, raise, ret.
    destruct (fails db (QLayerEditable (layer_id annotation))); [eexists; reflexivity|].
    unfold layer_row.
    destruct H as [H|[l [H E]]]; rewrite H; simpl; [|rewrite E]; eexists; reflexivity.
  - intros db annotation_id updates Hf Hz.
    unfold update, read, bind, try_except, db_exec. rewrite Hf.
    rewrite <- Z.eqb_neq in Hz. rewrite Hz.
    unfold update_rows, set_annotations. simpl. rewrite Hf. reflexivity.
Qed.

End AnnotationClaims.

Module BoundaryClaims.
Import BoundaryRoutes Fixtures.

(** C2 (divergence): when the area has a parent that has no boundary,
    validation does not pass. [BoundaryService.read] of the parent reaches
    its bare [raise] with no active exception, [RuntimeError] escapes to the
    handler, and the request fails with status 500, nothing created. *)
Theorem missing_parent_boundary_fails : forall (db : DB) (map_area_id : Z)
  (coordinates : list (list PyNumber.number)) (ma : MapModel.t) (parent_id : Z),
  (forall q, fails db q = false) -> map_area_id <> 0 ->
  LayerService.find_area (map_areas db) map_area_id = Some ma ->
  MapModel.parent_id ma = Some parent_id -> parent_id <> 0 ->
  BoundaryService.find_boundary (boundaries db) parent_id = None ->
  create_boundary map_area_id coordinates db =
    (db, Ret (500, RError "No active exception to reraise")).
Proof.
  intros db map_area_id coordinates ma parent_id Hf Hz Ha Hp Hpz Hb.
  unfold create_boundary, MapService.read, try_except, bind, db_exec, ret.
  rewrite <- Z.eqb_neq in Hz, Hpz. rewrite Hz, Hf, Ha, Hp, Hpz.
  unfold BoundaryService.read, bind, db_exec, raise. rewrite Hf, Hb. reflexivity.
Qed.

End BoundaryClaims.

(** * The claims' theorems applied to concrete stores *)
Module Witnesses.
Import LayerModel LayerService LayerClaims BoundaryRoutes BoundaryClaims Fixtures.

(** The master area 1 of [master_two_layers] (layers z = 1 then z = 0 in
    creation order) resolves to the z = 0 layer followed by the z = 1 one. *)
Lemma read_map_stack_order_witness :
  read_map 10 1 master_two_layers =
    (master_two_layers, Ret (Some [own_layer 2 1 0 2 true; own_layer 1 1 1 1 true])) /\
  (master_two_layers = master_two_layers /\
   exists own inherited,
     _list_own_layers 1 master_two_layers = (master_two_layers, Ret own) /\
     _get_inherited_layers (read_map 9) 1 master_two_layers = (master_two_layers, Ret inherited) /\
     Permutation [own_layer 2 1 0 2 true; own_layer 1 1 1 1 true] (own ++ inherited) /\
     Sorted (fun a b => le_z_created a b = true)
       [own_layer 2 1 0 2 true; own_layer 1 1 1 1 true]).
Proof.
  split.
  - vm_compute. reflexivity.
  - apply (read_map_stack_order 10 1 master_two_layers master_two_layers
             [own_layer 2 1 0 2 true; own_layer 1 1 1 1 true]).
    vm_compute. reflexivity.
Defined.


(** Layer 1 of [read_only_layer] is an inherited copy: both mutations are
    refused. *)
Lemma layer_mutation_guard_witness :
  update 1 [UName "Roads"%string] read_only_layer =
    (read_only_layer,
     Raise (ValueError "Cannot update inherited layer. Inherited layers are read-only.")) /\
  delete 1 read_only_layer =
    (read_only_layer,
     Raise (ValueError "Cannot delete inherited layer. Inherited layers are read-only.")).
Proof.
  destruct (layer_mutation_guard read_only_layer 1 [UName "Roads"%string]
              ltac:(lia) (fun q => eq_refl)) as [H _].
  exact H.
Defined.

(** Suburb 2 of [parent_without_boundary]: its parent 1 has no boundary. *)
Lemma missing_parent_boundary_fails_witness :
  create_boundary 2 triangle parent_without_boundary =
    (parent_without_boundary, Ret (500, RError "No active exception to reraise")).
Proof.
  apply (missing_parent_boundary_fails parent_without_boundary 2 triangle
           (MapModel.mk 2 (Some 1) "suburb") 1);
    [intros q; reflexivity | lia | reflexivity | reflexivity | lia | reflexivity].
Defined.

(** On [square10] the point (3, 12) lies above every vertex's second
    coordinate. *)
Lemma point_in_polygon_outside_band_witness :
  (forall v, In v square10 -> exists a b, v = [a; b] /\ PyNumber.gt b (PyNumber.NInt 12) = false) /\
  PyGeometry._point_in_polygon (PyNumber.NInt 3, PyNumber.NInt 12) square10 = Ret false.
Proof.
  assert (H : forall v, In v square10 ->
                exists a b, v = [a; b] /\ PyNumber.gt b (PyNumber.NInt 12) = false).
  { intros v Hv. simpl in Hv.
    repeat (destruct Hv as [<-|Hv]; [eexists _, _; split; reflexivity|]). contradiction. }
  split; [exact H|].
  exact (proj1 GeometryClaims.point_in_polygon_outside_band square10 _ _ H).
Defined.

End Witnesses.

(** * Further properties of the modelled code *)

(** ** Point in polygon: vertex order and closed rings *)
Module PolygonFacts.
Import PyFloat Geometry GeometrySpec GeometryFacts.

Lemma edges_app_last : forall l x,
  edges (l ++ [x]) = combine (l ++ [x]) (x :: l).
Proof.
  intros [|a l] x; [reflexivity|].
  unfold edges. rewrite <- app_comm_cons, app_comm_cons, last_last, removelast_last.
  reflexivity.
Qed.

Lemma combine_app_single {B C} : forall (a : list B) (b : list C) x y,
  List.length a = List.length b ->
  combine (a ++ [x]) (b ++ [y]) = combine a b ++ [(x, y)].
Proof.
  induction a as [|u a IH]; intros [|w b] x y H; try discriminate; [reflexivity|].
  simpl. rewrite IH; [reflexivity|]. simpl in H. lia.
Qed.

Lemma length_filter_snoc {B} (f : B -> bool) (e : B) (l : list B) :
  List.length (filter f (l ++ [e])) = List.length (filter f (e :: l)).
Proof.
  rewrite filter_app, length_app. simpl. destruct (f e); simpl; lia.
Qed.

(** Moving the first vertex to the end keeps the number of crossings. *)
Lemma crossings_rotate1 : forall pt v r,
  crossings pt (v :: r) = crossings pt (r ++ [v]).
Proof.
  intros pt v r. destruct r as [|u r0]; [reflexivity|].
  destruct (exists_last (l := u :: r0) ltac:(discriminate)) as [r' [w Hr]].
  rewrite Hr. unfold crossings.
  rewrite app_comm_cons, edges_app_last.
  rewrite edges_app_last.
  change (w :: v :: r') with (w :: (v :: r')).
  change (v :: r' ++ [w]) with ((v :: r') ++ [w]).
  rewrite combine_app_single by (rewrite length_app; simpl; lia).
  rewrite length_filter_snoc. reflexivity.
Qed.

Lemma crossings_rotate : forall pt l1 l2,
  crossings pt (l1 ++ l2) = crossings pt (l2 ++ l1).
Proof.
  intros pt l1. induction l1 as [|a l1 IH]; intros l2.
  - rewrite app_nil_r. reflexivity.
  - rewrite <- app_comm_cons, crossings_rotate1, <- app_assoc, IH, <- app_assoc.
    reflexivity.
Qed.

Lemma code_crossing_same_vertex : forall x y v, code_crossing x y v v = false.
Proof.
  intros x y [xv yv]. unfold code_crossing, py_ne_bool.
  rewrite eqb_reflx. reflexivity.
Qed.

Lemma crossings_closed : forall pt v r,
  crossings pt (v :: r ++ [v]) = crossings pt (v :: r).
Proof.
  intros [x y] v r. rewrite (crossings_rotate1 _ v r). unfold crossings.
  rewrite app_comm_cons, !edges_app_last.
  change (combine ((v :: r) ++ [v]) (v :: v :: r))
    with ((v, v) :: combine (r ++ [v]) (v :: r)).
  simpl fst; simpl snd. cbn [filter]. rewrite code_crossing_same_vertex.
  reflexivity.
Qed.

End PolygonFacts.

Module PolygonExtras.
Import PyFloat Geometry GeometrySpec GeometryFacts PolygonFacts.

(** [X1] [_point_in_polygon] does not depend on the vertex the polygon
    starts from: rotating the vertex list gives the same answer. *)
Theorem point_in_polygon_rotation : forall pt l1 l2,
  _point_in_polygon pt (l1 ++ l2) = _point_in_polygon pt (l2 ++ l1).
Proof.
  intros pt l1 l2. rewrite !point_in_polygon_parity, crossings_rotate. reflexivity.
Qed.

(** [X2] A ring given closed, its first vertex repeated at the end, is
    classified as the open one: the extra edge from a vertex to itself
    never passes the between-test. *)
Theorem point_in_polygon_closed_ring : forall pt v r,
  _point_in_polygon pt (v :: r ++ [v]) = _point_in_polygon pt (v :: r).
Proof.
  intros pt v r. rewrite !point_in_polygon_parity, crossings_closed. reflexivity.
Qed.

(** [X3] A flat polygon, all of whose vertices have the same second
    coordinate, contains no point. *)
Theorem point_in_polygon_flat : forall pt polygon lon,
  Forall (fun v => snd v = lon) polygon ->
  _point_in_polygon pt polygon = Ret false.
Proof.
  intros [x y] polygon lon H. rewrite point_in_polygon_parity, crossings_zero; [reflexivity|].
  intros vi vj Hi Hj. rewrite Forall_forall in H.
  rewrite (H vi Hi), (H vj Hj). unfold py_ne_bool. rewrite eqb_reflx. reflexivity.
Qed.

(** [X4] [is_within_boundary] answers [True] exactly when every
    coordinate has at least two entries and [_point_in_polygon] answers
    [True] for its first two; on float pairs it never raises. *)
Theorem is_within_boundary_all :
  (forall coordinates parent_boundary,
     PyGeometry.is_within_boundary coordinates parent_boundary = Ret true <->
     Forall (fun c => exists a b r, c = a :: b :: r /\
               PyGeometry._point_in_polygon (a, b) parent_boundary = Ret true) coordinates) /\
  (forall coordinates parent_boundary : list point,
     exists b, PyGeometry.is_within_boundary (map PyGeometry.of_point coordinates)
                 (map PyGeometry.of_point parent_boundary) = Ret b).
Proof.
  split.
  - intros coordinates pb. induction coordinates as [|c cs IH].
    + split; intros; [constructor|reflexivity].
    + destruct c as [|a [|b r]].
      * split; intros H; [discriminate|].
        inversion H as [|? ? [a [b [r [Hc _]]]]]; discriminate.
      * split; intros H; [discriminate|].
        inversion H as [|? ? [a' [b [r [Hc _]]]]]; discriminate.
      * cbn [PyGeometry.is_within_boundary].
        destruct (PyGeometry._point_in_polygon (a, b) pb) as [[|]|e] eqn:E; cbn [PyNumber.obind].
        -- rewrite IH. split; intros H.
           ++ constructor; [exists a, b, r; split; [reflexivity|exact E]|exact H].
           ++ inversion H; assumption.
        -- split; intros H; [discriminate|].
           inversion H as [|? ? [a' [b' [r' [Hc Hp]]]]]; subst.
           injection Hc as -> -> ->. rewrite E in Hp. discriminate.
        -- split; intros H; [discriminate|].
           inversion H as [|? ? [a' [b' [r' [Hc Hp]]]]]; subst.
           injection Hc as -> -> ->. rewrite E in Hp. discriminate.
  - intros coordinates pb. induction coordinates as [|[x y] cs IH]; [eexists; reflexivity|].
    cbn [map PyGeometry.is_within_boundary PyGeometry.of_point fst snd].
    rewrite PyGeometryFacts.point_in_polygon_floats, point_in_polygon_parity. cbn [PyNumber.obind].
    destruct (Nat.odd _); [exact IH|eexists; reflexivity].
Qed.

End PolygonExtras.

(** ** Layers: rowids, updates and the reorder loop *)
Module LayerStoreFacts.
Import LayerModel LayerService LayerFacts.

Lemma next_rowid_fresh : forall ids i, In (Some i) ids -> i < next_rowid ids.
Proof.
  unfold next_rowid. induction ids as [|o ids IH]; intros i H; [contradiction|].
  destruct H as [H|H].
  - subst o. cbn [fold_right]. pose proof (Z.le_max_l i (fold_right
      (fun o m => match o with Some i => Z.max i m | None => m end) 0 ids)). lia.
  - specialize (IH i H). cbn [fold_right]. destruct o as [j|]; [|lia].
    pose proof (Z.le_max_r j (fold_right
      (fun o m => match o with Some i => Z.max i m | None => m end) 0 ids)). lia.
Qed.

Lemma next_rowid_pos : forall ids, 0 < next_rowid ids.
Proof.
  unfold next_rowid. intros ids.
  assert (0 <= fold_right (fun o m => match o with Some i => Z.max i m | None => m end) 0 ids).
  { induction ids as [|[i|] ids IH]; cbn [fold_right]; [lia| |lia].
    pose proof (Z.le_max_r i (fold_right
      (fun o m => match o with Some i => Z.max i m | None => m end) 0 ids)). lia. }
  lia.
Qed.

Lemma insert_rowid_fresh : forall seq ids i, In (Some i) ids -> i < insert_rowid seq ids.
Proof.
  intros [s|] ids i H; simpl; pose proof (next_rowid_fresh ids i H); lia.
Qed.

Lemma insert_rowid_pos : forall seq ids, 0 < insert_rowid seq ids.
Proof. intros [s|] ids; simpl; pose proof (next_rowid_pos ids); lia. Qed.

Lemma insert_rowid_sequence : forall seq ids s, seq = Some s -> s < insert_rowid seq ids.
Proof. intros seq ids s ->. simpl. lia. Qed.

Lemma find_layer_some : forall ls lid l,
  find_layer ls lid = Some l -> id l = Some lid /\ In l ls.
Proof.
  intros ls lid l H. apply find_some in H as [Hin Hk]. split; [|exact Hin].
  unfold opt_eqb in Hk. destruct (id l) as [x|]; [|discriminate].
  apply Z.eqb_eq in Hk. subst. reflexivity.
Qed.

Lemma find_layer_snoc_fresh : forall ls row lid,
  (forall l, In l ls -> id l <> Some lid) -> id row = Some lid ->
  find_layer (ls ++ [row]) lid = Some row.
Proof.
  unfold find_layer. induction ls as [|l ls IH]; intros row lid Hfresh Hrow; simpl.
  - rewrite Hrow. simpl. rewrite Z.eqb_refl. reflexivity.
  - assert (opt_eqb (id l) lid = false) as E.
    { unfold opt_eqb. destruct (id l) as [x|] eqn:Hl; [|reflexivity].
      apply Z.eqb_neq. intros ->. apply (Hfresh l); [left; reflexivity|exact Hl]. }
    rewrite E. apply IH; [|exact Hrow]. intros l' Hl'. apply Hfresh. right. exact Hl'.
Qed.

Lemma read_layer_same_db : forall lid db, exists o, read_layer lid db = (db, Ret o).
Proof.
  intros lid db. unfold read_layer. destruct (lid =? 0); [eexists; reflexivity|].
  run. destruct (fails db (QLayerById lid)); eexists; reflexivity.
Qed.

Lemma find_layer_update_rows : forall db lid fields,
  find_layer (layers (update_rows db lid fields)) lid =
  option_map (fun l => touch (fold_left set_field (map (inline_timestamp (clock db)) fields) l)
                             (clock db))
             (find_layer (layers db) lid).
Proof.
  intros db lid fields. unfold update_rows, find_layer. simpl.
  induction (layers db) as [|l ls IH]; [reflexivity|]. simpl.
  destruct (opt_eqb (id l) lid) eqn:E; [|simpl; rewrite E; exact IH].
  simpl. destruct (fold_set_field_keeps (map (inline_timestamp (clock db)) fields) l) as [E1 _].
  rewrite E1, E. reflexivity.
Qed.

(** The columns [update] never writes. *)
Lemma fold_set_field_fixed : forall fields l,
  let l' := fold_left set_field fields l in
  (id l', map_area_id l', parent_layer_id l', layer_type l', is_editable l', created_at l') =
  (id l, map_area_id l, parent_layer_id l, layer_type l, is_editable l, created_at l).
Proof.
  induction fields as [|u fields IH]; intros l; simpl; [reflexivity|].
  rewrite IH. destruct u; reflexivity.
Qed.

Lemma update_rows_fixed : forall db lid fields,
  map (fun l => (id l, map_area_id l, parent_layer_id l, layer_type l, is_editable l,
                 created_at l)) (layers (update_rows db lid fields)) =
  map (fun l => (id l, map_area_id l, parent_layer_id l, layer_type l, is_editable l,
                 created_at l)) (layers db).
Proof.
  intros db lid fields. unfold update_rows. simpl. rewrite map_map.
  apply map_ext. intros l. destruct (opt_eqb (id l) lid); [|reflexivity].
  simpl. pose proof (fold_set_field_fixed (map (inline_timestamp (clock db)) fields) l) as H.
  simpl in H.
  injection H as -> -> -> -> -> ->. reflexivity.
Qed.

Lemma update_rows_others : forall db lid fields,
  filter (fun l => negb (opt_eqb (id l) lid)) (layers (update_rows db lid fields)) =
  filter (fun l => negb (opt_eqb (id l) lid)) (layers db).
Proof.
  intros db lid fields. unfold update_rows. simpl.
  induction (layers db) as [|l ls IH]; [reflexivity|]. simpl.
  destruct (opt_eqb (id l) lid) eqn:E; simpl.
  - destruct (fold_set_field_keeps (map (inline_timestamp (clock db)) fields) l) as [E1 _].
    rewrite E1, E. exact IH.
  - rewrite E. simpl. rewrite IH. reflexivity.
Qed.

Lemma read_layer_some : forall lid db r,
  read_layer lid db = (db, Ret (Some r)) -> find_layer (layers db) lid = Some r.
Proof.
  intros lid db r H. unfold read_layer in H. destruct (lid =? 0); [discriminate|].
  revert H. run. destruct (fails db (QLayerById lid)); intros H; injection H as H; congruence.
Qed.

Lemma find_layer_filter_out : forall ls lid,
  find_layer (filter (fun l => negb (opt_eqb (id l) lid)) ls) lid = None.
Proof.
  unfold find_layer. induction ls as [|l ls IH]; intros lid; [reflexivity|]. simpl.
  destruct (opt_eqb (id l) lid) eqn:E; simpl; [apply IH|]. rewrite E. apply IH.
Qed.

Lemma find_key_well_keyed : forall updates f u,
  Forall well_keyed updates -> In f allowed_fields ->
  find (fun u => String.eqb (update_key u) f) updates = Some u ->
  update_key u = f /\ match u with UOther _ _ => False | _ => True end.
Proof.
  intros updates f u Hwf Hf H. apply find_some in H as [Hin Hk].
  apply String.eqb_eq in Hk. split; [exact Hk|].
  rewrite Forall_forall in Hwf. specialize (Hwf u Hin).
  destruct u; try exact I. simpl in Hk. subst. exact (Hwf Hf).
Qed.

End LayerStoreFacts.

Module LayerExtras.
Import LayerModel LayerService LayerFacts LayerStoreFacts.

(** [X5] [create] stores the row under the rowid the insert assigns,
    which is above every rowid in the table and, for an [AUTOINCREMENT]
    table, above its [sqlite_sequence] entry, with the store's clock as
    [created_at] and [updated_at]. It returns the caller's layer with [id]
    set to that rowid and its own timestamps, and [read] of that id
    returns the stored row. *)
Theorem create_read_layer_roundtrip : forall db layer rowid,
  rowid = insert_rowid (sequence db "layers") (map id (layers db)) ->
  fails db QInsertLayer = false ->
  fails db (QLayerById rowid) = false ->
  (forall i, In (Some i) (map id (layers db)) -> i < rowid) /\
  (forall s, sequence db "layers" = Some s -> s < rowid) /\
  exists db',
    create layer db = (db', Ret (with_id layer rowid)) /\
    layers db' = layers db ++ [stored layer rowid (clock db)] /\
    read_layer rowid db' = (db', Ret (Some (stored layer rowid (clock db)))).
Proof.
  intros db layer rowid Hr Hins Hread. subst rowid.
  split; [intros i; apply insert_rowid_fresh|].
  split; [intros s; apply insert_rowid_sequence|].
  unfold create, db_exec. rewrite Hins.
  eexists; split; [reflexivity|]. split; [reflexivity|].
  rewrite read_layer_eq; [| pose proof (insert_rowid_pos (sequence db "layers")
                                          (map id (layers db))); lia
                          | exact Hread].
  f_equal. f_equal. simpl. apply find_layer_snoc_fresh; [|reflexivity].
  intros l Hl Hid.
  apply (Z.lt_irrefl (insert_rowid (sequence db "layers") (map id (layers db)))).
  apply insert_rowid_fresh. rewrite <- Hid. apply in_map, Hl.
Qed.

(** The entry [find] picks for one of the four fields is that field's own
    constructor. *)
Ltac key_case E Hwf :=
  let K := fresh "K" in let W := fresh "W" in let H := fresh in
  pose proof E as H; eapply find_key_well_keyed in H;
  [destruct H as [K W] | exact Hwf | simpl; tauto];
  match type of E with _ = Some ?u => destruct u; try discriminate K; try contradiction W end.

(** [X6] [update] of an editable layer writes exactly the four allowed
    fields that [updates] carries, stamps [updated_at], keeps every other
    column, and returns the row as read back. A [name] or [config] value
    whose [upper()] is [CURRENT_TIMESTAMP] is written inline by
    [DatabaseManager.update], so the column receives the current time's
    text instead. *)
Theorem layer_update_result : forall db layer_id updates l,
  layer_id <> 0 ->
  fails db (QLayerById layer_id) = false -> fails db (QUpdateLayer layer_id) = false ->
  find_layer (layers db) layer_id = Some l -> is_editable l = true ->
  Forall well_keyed updates ->
  exists db' l', update layer_id updates db = (db', Ret (Some l')) /\
    id l' = id l /\ map_area_id l' = map_area_id l /\
    parent_layer_id l' = parent_layer_id l /\ layer_type l' = layer_type l /\
    is_editable l' = true /\ created_at l' = created_at l /\ updated_at l' = clock db /\
    name l' = match find (fun u => String.eqb (update_key u) "name") updates with
              | Some (UName v) => update_text (clock db) v | _ => name l end /\
    visible l' = match find (fun u => String.eqb (update_key u) "visible") updates with
                 | Some (UVisible v) => v | _ => visible l end /\
    z_index l' = match find (fun u => String.eqb (update_key u) "z_index") updates with
                 | Some (UZIndex v) => v | _ => z_index l end /\
    config l' = match find (fun u => String.eqb (update_key u) "config") updates with
                | Some (UConfig v) => update_text (clock db) v | _ => config l end.
Proof.
  intros db layer_id updates l Hz Hf1 Hf2 Hfind Hed Hwf.
  unfold update, bind. rewrite (read_layer_eq _ _ Hz Hf1), Hfind, Hed. simpl.
  unfold db_exec. rewrite Hf2. simpl.
  rewrite read_layer_eq by (simpl; assumption).
  rewrite find_layer_update_rows, Hfind. simpl.
  eexists; eexists; split; [reflexivity|].
  pose proof (fold_set_field_fixed (map (inline_timestamp (clock db)) (all_fields updates)) l)
    as Hfix. simpl in Hfix.
  injection Hfix as Hid Harea Hpar Htype Hed' Hcr. unfold touch. simpl.
  rewrite Hid, Harea, Hpar, Htype, Hed', Hcr, Hed.
  do 7 (split; [reflexivity|]).
  unfold all_fields, allowed_fields. cbn [flat_map].
  destruct (find (fun u => String.eqb (update_key u) "name") updates) as [u1|] eqn:E1;
    [key_case E1 Hwf|];
  destruct (find (fun u => String.eqb (update_key u) "visible") updates) as [u2|] eqn:E2;
    try (key_case E2 Hwf);
  destruct (find (fun u => String.eqb (update_key u) "z_index") updates) as [u3|] eqn:E3;
    try (key_case E3 Hwf);
  destruct (find (fun u => String.eqb (update_key u) "config") updates) as [u4|] eqn:E4;
    try (key_case E4 Hwf);
  simpl; repeat split; reflexivity.
Qed.

(** [X7] Whatever [update] does, it never writes a layer's [id],
    [map_area_id], [parent_layer_id], [layer_type], [is_editable] or
    [created_at], and it leaves the rows of every other layer as they were. *)
Theorem layer_update_fixed_columns : forall db layer_id updates db' r,
  update layer_id updates db = (db', r) ->
  map (fun l => (id l, map_area_id l, parent_layer_id l, layer_type l, is_editable l,
                 created_at l)) (layers db') =
  map (fun l => (id l, map_area_id l, parent_layer_id l, layer_type l, is_editable l,
                 created_at l)) (layers db) /\
  filter (fun l => negb (opt_eqb (id l) layer_id)) (layers db') =
  filter (fun l => negb (opt_eqb (id l) layer_id)) (layers db).
Proof.
  intros db layer_id updates db' r H. unfold update, bind in H.
  destruct (read_layer_same_db layer_id db) as [o Ho]. rewrite Ho in H.
  destruct o as [l|].
  - destruct (negb (is_editable l)).
    + injection H as <- _. split; reflexivity.
    + unfold db_exec in H. destruct (fails db (QUpdateLayer layer_id)).
      * injection H as <- _. split; reflexivity.
      * destruct (read_layer_same_db layer_id
                    (update_rows db layer_id (all_fields updates))) as [o2 Ho2].
        rewrite Ho2 in H. injection H as <- _.
        split; [apply update_rows_fixed|apply update_rows_others].
  - injection H as <- _. split; reflexivity.
Qed.

(** [X8] [delete] answers [False] and removes nothing when the id is [0],
    when no layer has it, or when the lookup fails with a store error
    (which [read] swallows). *)
Theorem layer_delete_not_found : forall db layer_id,
  layer_id = 0 \/ fails db (QLayerById layer_id) = true \/
  find_layer (layers db) layer_id = None ->
  delete layer_id db = (db, Ret false).
Proof.
  intros db layer_id H. unfold delete, bind, read_layer.
  destruct (Z.eqb_spec layer_id 0) as [Hz|Hz]; [reflexivity|].
  run. destruct (fails db (QLayerById layer_id)) eqn:F; [reflexivity|].
  destruct H as [H|[H|H]]; [contradiction|discriminate|]. rewrite H. reflexivity.
Qed.

(** [X9] [delete] of an editable layer answers [True], after which [read]
    no longer finds the layer. *)
Theorem layer_delete_removes : forall db layer_id l,
  layer_id <> 0 ->
  fails db (QLayerById layer_id) = false -> fails db (QDeleteLayer layer_id) = false ->
  find_layer (layers db) layer_id = Some l -> is_editable l = true ->
  exists db', delete layer_id db = (db', Ret true) /\
              read_layer layer_id db' = (db', Ret None).
Proof.
  intros db layer_id l Hz Hf1 Hf2 Hfind Hed.
  unfold delete, bind. rewrite (read_layer_eq _ _ Hz Hf1), Hfind, Hed. simpl.
  unfold db_exec. rewrite Hf2. simpl. eexists; split; [reflexivity|].
  rewrite read_layer_eq by (simpl; assumption). simpl.
  rewrite find_layer_filter_out. reflexivity.
Qed.

(** [X10] [_reorder_layers] never raises, and every layer it returns has
    the [z_index] that one of the requested entries gave to its id. *)
Theorem reorder_layers_result : forall layer_updates db,
  exists db' updated_layers,
    _reorder_layers layer_updates db = (db', Ret updated_layers) /\
    Forall (fun r => exists layer_id, In (layer_id, z_index r) layer_updates /\
                                      id r = Some layer_id) updated_layers.
Proof.
  induction layer_updates as [|[layer_id z] rest IH]; intros db.
  - exists db, []. split; [reflexivity|constructor].
  - cbn [_reorder_layers]. unfold bind, try_except, db_exec, ret.
    destruct (fails db (QReorderLayer layer_id)).
    + destruct (IH db) as [db' [res [Hr Hf]]]. exists db', res. split; [exact Hr|].
      eapply Forall_impl; [|exact Hf]. intros r [lid [Hin Hid]].
      exists lid. split; [right; exact Hin|exact Hid].
    + set (db1 := update_rows db layer_id [UZIndex z]).
      destruct (read_layer_same_db layer_id db1) as [o Ho]. rewrite Ho.
      destruct (IH db1) as [db' [res [Hr Hf]]]. rewrite Hr.
      assert (Hf' : Forall (fun r => exists lid, In (lid, z_index r) ((layer_id, z) :: rest) /\
                                                 id r = Some lid) res).
      { eapply Forall_impl; [|exact Hf]. intros r [lid [Hin Hid]].
        exists lid. split; [right; exact Hin|exact Hid]. }
      destruct o as [r|]; eexists; eexists; (split; [reflexivity|]); [|exact Hf'].
      constructor; [|exact Hf'].
      apply read_layer_some in Ho. unfold db1 in Ho.
      rewrite find_layer_update_rows in Ho.
      destruct (find_layer (layers db) layer_id) as [l|] eqn:Hl; [|discriminate].
      injection Ho as <-. exists layer_id. split; [left; reflexivity|].
      apply find_layer_some in Hl as [Hid _]. exact Hid.
Qed.

(** [X11] [_reorder_layers] does not check [is_editable]: it re-indexes any
    layer that exists, a read-only inherited copy included, and returns the
    row as read back. *)
Theorem reorder_layers_ignores_editability : forall db layer_id z l,
  layer_id <> 0 ->
  fails db (QReorderLayer layer_id) = false -> fails db (QLayerById layer_id) = false ->
  find_layer (layers db) layer_id = Some l ->
  _reorder_layers [(layer_id, z)] db =
    (update_rows db layer_id [UZIndex z], Ret [touch (set_field l (UZIndex z)) (clock db)]).
Proof.
  intros db layer_id z l Hz Hf1 Hf2 Hfind.
  cbn [_reorder_layers]. unfold bind, try_except, db_exec, ret. rewrite Hf1.
  rewrite read_layer_eq by (simpl; assumption).
  rewrite find_layer_update_rows, Hfind. reflexivity.
Qed.

End LayerExtras.

(** ** Annotations: round trip, deletion and the errors they raise *)
Module AnnotationStoreFacts.
Import AnnotationModel AnnotationService LayerFacts LayerStoreFacts.

Lemma read_annotation_eq : forall annotation_id db, annotation_id <> 0 ->
  fails db (QAnnotationById annotation_id) = false ->
  read annotation_id db = (db, Ret (find_annotation (annotations db) annotation_id)).
Proof.
  intros annotation_id db Hz Hf. unfold read.
  rewrite <- Z.eqb_neq in Hz. rewrite Hz. run. rewrite Hf. reflexivity.
Qed.

Lemma find_annotation_snoc_fresh : forall ans row aid,
  (forall a, In a ans -> id a <> Some aid) -> id row = Some aid ->
  find_annotation (ans ++ [row]) aid = Some row.
Proof.
  unfold find_annotation. induction ans as [|a ans IH]; intros row aid Hfresh Hrow; simpl.
  - rewrite Hrow. simpl. rewrite Z.eqb_refl. reflexivity.
  - assert (opt_eqb (id a) aid = false) as E.
    { unfold opt_eqb. destruct (id a) as [x|] eqn:Ha; [|reflexivity].
      apply Z.eqb_neq. intros ->. apply (Hfresh a); [left; reflexivity|exact Ha]. }
    rewrite E. apply IH; [|exact Hrow]. intros a' Ha'. apply Hfresh. right. exact Ha'.
Qed.

Lemma find_annotation_filter_out : forall ans aid,
  find_annotation (filter (fun a => negb (opt_eqb (id a) aid)) ans) aid = None.
Proof.
  unfold find_annotation. induction ans as [|a ans IH]; intros aid; [reflexivity|]. simpl.
  destruct (opt_eqb (id a) aid) eqn:E; simpl; [apply IH|]. rewrite E. apply IH.
Qed.

Lemma rowcount_existsb {B} (p : B -> bool) : forall l,
  Nat.ltb 0 (List.length l - List.length (filter (fun x => negb (p x)) l)) = existsb p l.
Proof.
  assert (Hle : forall l, (List.length (filter (fun x => negb (p x)) l) <= List.length l)%nat).
  { induction l as [|x l IH]; simpl; [lia|]. destruct (negb (p x)); simpl; lia. }
  induction l as [|x l IH]; [reflexivity|]. cbn [filter existsb List.length].
  destruct (p x); cbn [negb orb].
  - specialize (Hle l). apply Nat.ltb_lt. lia.
  - cbn [List.length]. rewrite Nat.sub_succ. exact IH.
Qed.

Lemma annotation_rows_fixed : forall db aid fields,
  map (fun a => (id a, layer_id a, annotation_type a))
      (annotations (update_rows db aid fields)) =
  map (fun a => (id a, layer_id a, annotation_type a)) (annotations db).
Proof.
  intros db aid fields. unfold update_rows. simpl. rewrite map_map.
  apply map_ext. intros a. destruct (opt_eqb (id a) aid); [|reflexivity].
  simpl. clear. revert a.
  induction fields as [|u fields IH]; intros a; simpl; [reflexivity|].
  rewrite IH. destruct u; reflexivity.
Qed.

Lemma fold_set_field_id : forall fields a, id (fold_left set_field fields a) = id a.
Proof.
  induction fields as [|u fields IH]; intros a; simpl; [reflexivity|].
  rewrite IH. destruct u; reflexivity.
Qed.

Lemma annotation_rows_others : forall db aid fields,
  filter (fun a => negb (opt_eqb (id a) aid)) (annotations (update_rows db aid fields)) =
  filter (fun a => negb (opt_eqb (id a) aid)) (annotations db).
Proof.
  intros db aid fields. unfold update_rows. simpl.
  induction (annotations db) as [|a ans IH]; [reflexivity|]. simpl.
  destruct (opt_eqb (id a) aid) eqn:E; simpl.
  - rewrite fold_set_field_id, E. exact IH.
  - rewrite E. simpl. rewrite IH. reflexivity.
Qed.

Lemma update_rows_none : forall db aid fields,
  find_annotation (annotations db) aid = None -> update_rows db aid fields = db.
Proof.
  intros [areas ls bs ans c f sq] aid fields H. unfold update_rows, set_annotations. simpl in *.
  f_equal. unfold find_annotation in H.
  induction ans as [|a ans IH]; [reflexivity|]. simpl in H |- *.
  destruct (opt_eqb (id a) aid); [discriminate|]. rewrite IH; [reflexivity|exact H].
Qed.

Lemma read_raises_ValueError : forall aid db db' e,
  read aid db = (db', Raise e) -> exists msg, e = ValueError msg.
Proof.
  intros aid db db' e H. unfold read in H. destruct (aid =? 0); [discriminate|].
  revert H. run. destruct (fails db (QAnnotationById aid)); intros H; inversion H; subst;
    eexists; reflexivity.
Qed.

End AnnotationStoreFacts.

Module AnnotationExtras.
Import AnnotationModel AnnotationService LayerFacts LayerStoreFacts AnnotationStoreFacts.

(** [X12] [create] on an editable layer stores the annotation under the
    rowid the insert assigns (above every rowid in the table) with the
    given layer, type, coordinates, style and content and the store's clock
    as [updated_at]. It returns the caller's annotation with [id] set to
    that rowid and its own [updated_at], and [read] of that id returns the
    stored row. *)
Theorem annotation_create_read_roundtrip : forall db annotation l rowid,
  rowid = insert_rowid (sequence db "annotations") (map id (annotations db)) ->
  fails db (QLayerEditable (layer_id annotation)) = false ->
  LayerService.find_layer (layers db) (layer_id annotation) = Some l ->
  LayerModel.is_editable l = true ->
  fails db QInsertAnnotation = false ->
  fails db (QAnnotationById rowid) = false ->
  (forall i, In (Some i) (map id (annotations db)) -> i < rowid) /\
  exists db',
    create annotation db =
      (db', Ret (mk (Some rowid) (layer_id annotation) (annotation_type annotation)
                    (coordinates annotation) (style annotation) (content annotation)
                    (updated_at annotation))) /\
    annotations db' =
      annotations db ++ [mk (Some rowid) (layer_id annotation) (annotation_type annotation)
                            (coordinates annotation) (style annotation)
                            (content annotation) (clock db)] /\
    read rowid db' =
      (db', Ret (Some (mk (Some rowid) (layer_id annotation) (annotation_type annotation)
                          (coordinates annotation) (style annotation)
                          (content annotation) (clock db)))).
Proof.
  intros db annotation l rowid Hr Hf1 Hl Hed Hf2 Hf3. subst rowid.
  split; [intros i; apply insert_rowid_fresh|].
  unfold create, bind, try_except, db_exec, raise, ret. rewrite Hf1.
  unfold layer_row. rewrite Hl. simpl. rewrite Hed. simpl. rewrite Hf2.
  eexists. split; [reflexivity|]. split; [reflexivity|].
  rewrite read_annotation_eq; [| pose proof (insert_rowid_pos (sequence db "annotations")
                                              (map id (annotations db))); lia
                              | exact Hf3].
  f_equal. f_equal. simpl. apply find_annotation_snoc_fresh; [|reflexivity].
  intros a Ha Hid.
  apply (Z.lt_irrefl (insert_rowid (sequence db "annotations") (map id (annotations db)))).
  apply insert_rowid_fresh. rewrite <- Hid. apply in_map, Ha.
Qed.

(** [X13] [create] on a layer id no layer has raises a [ValueError] whose
    message carries both the inner and the outer text:
    ["Error validating layer: Layer with ID <id> does not exist"]; the store
    is unchanged. *)
Theorem annotation_create_missing_layer : forall db annotation,
  fails db (QLayerEditable (layer_id annotation)) = false ->
  LayerService.find_layer (layers db) (layer_id annotation) = None ->
  create annotation db =
    (db, Raise (ValueError (String.append "Error validating layer: "
                  (String.append "Layer with ID "
                     (String.append (z_to_string (layer_id annotation)) " does not exist"))))).
Proof.
  intros db annotation Hf Hl.
  unfold create, bind, try_except, db_exec, raise, ret. rewrite Hf.
  unfold layer_row. rewrite Hl. reflexivity.
Qed.

(** [X14] [delete] answers [True] exactly when a row had the id, removes
    every such row and no other, after which [read] finds nothing. *)
Theorem annotation_delete_result : forall db annotation_id,
  annotation_id <> 0 ->
  fails db (QDeleteAnnotation annotation_id) = false ->
  fails db (QAnnotationById annotation_id) = false ->
  exists db',
    delete annotation_id db =
      (db', Ret (existsb (fun a => opt_eqb (id a) annotation_id) (annotations db))) /\
    annotations db' = filter (fun a => negb (opt_eqb (id a) annotation_id)) (annotations db) /\
    read annotation_id db' = (db', Ret None).
Proof.
  intros db aid Hz Hf1 Hf2. unfold delete, bind, try_except, db_exec, ret. rewrite Hf1.
  eexists. split; [rewrite rowcount_existsb; reflexivity|]. split; [reflexivity|].
  rewrite read_annotation_eq by (simpl; assumption). simpl.
  rewrite find_annotation_filter_out. reflexivity.
Qed.

(** [X15] [create], [read(annotation_id=...)], [update] and [delete]
    wrap every store error: each exception they raise is a [ValueError].
    (The [read(layer_id=...)] listing branch, not modelled, has no [try]
    and lets store errors through unwrapped.) *)
Theorem annotation_errors_are_ValueError :
  (forall annotation db db' e,
     create annotation db = (db', Raise e) -> exists msg, e = ValueError msg) /\
  (forall annotation_id db db' e,
     read annotation_id db = (db', Raise e) -> exists msg, e = ValueError msg) /\
  (forall annotation_id updates db db' e,
     update annotation_id updates db = (db', Raise e) -> exists msg, e = ValueError msg) /\
  (forall annotation_id db db' e,
     delete annotation_id db = (db', Raise e) -> exists msg, e = ValueError msg).
Proof.
  split; [|split; [|split]].
  - intros annotation db db' e H. revert H.
    unfold create, bind, try_except, db_exec, raise, ret.
    destruct (fails db (QLayerEditable (layer_id annotation)));
      [intros H; inversion H; eexists; reflexivity|].
    destruct (layer_row db (layer_id annotation)) as [[|]|]; simpl;
      [|intros H; inversion H; eexists; reflexivity|intros H; inversion H; eexists; reflexivity].
    destruct (fails db QInsertAnnotation); intros H; inversion H; eexists; reflexivity.
  - exact read_raises_ValueError.
  - intros aid updates db db' e H. revert H. unfold update, bind, try_except, db_exec, raise.
    destruct (fails db (QUpdateAnnotation aid)); [intros H; inversion H; eexists; reflexivity|].
    apply read_raises_ValueError.
  - intros aid db db' e H. revert H. unfold delete, bind, try_except, db_exec, raise, ret.
    destruct (fails db (QDeleteAnnotation aid)); intros H; inversion H; eexists; reflexivity.
Qed.

(** [X16] Whatever [update] does, no annotation's [id], [layer_id] or
    [annotation_type] changes, and the rows of other annotations are left
    as they were. *)
Theorem annotation_update_fixed_columns : forall db annotation_id updates db' r,
  update annotation_id updates db = (db', r) ->
  map (fun a => (id a, layer_id a, annotation_type a)) (annotations db') =
  map (fun a => (id a, layer_id a, annotation_type a)) (annotations db) /\
  filter (fun a => negb (opt_eqb (id a) annotation_id)) (annotations db') =
  filter (fun a => negb (opt_eqb (id a) annotation_id)) (annotations db).
Proof.
  intros db aid updates db' r H. revert H. unfold update, bind, try_except, db_exec, raise.
  destruct (fails db (QUpdateAnnotation aid)); [intros H; injection H as <- _; split; reflexivity|].
  unfold read. destruct (aid =? 0).
  - unfold ret. intros H; injection H as <- _.
    split; [apply annotation_rows_fixed|apply annotation_rows_others].
  - unfold try_except, db_exec, raise. simpl.
    destruct (fails db (QAnnotationById aid)); intros H; injection H as <- _;
      (split; [apply annotation_rows_fixed|apply annotation_rows_others]).
Qed.

(** [X17] [update] of an id that no annotation has raises nothing, changes
    nothing and returns [None]. *)
Theorem annotation_update_missing : forall db annotation_id updates,
  annotation_id <> 0 ->
  fails db (QUpdateAnnotation annotation_id) = false ->
  fails db (QAnnotationById annotation_id) = false ->
  find_annotation (annotations db) annotation_id = None ->
  update annotation_id updates db = (db, Ret None).
Proof.
  intros db aid updates Hz Hf1 Hf2 Hn. unfold update, bind, try_except, db_exec.
  rewrite Hf1. rewrite update_rows_none by exact Hn.
  rewrite read_annotation_eq by assumption. rewrite Hn. reflexivity.
Qed.

End AnnotationExtras.

(** ** Boundaries: the service's update and delete and the HTTP handlers *)
Module BoundaryStoreFacts.
Import BoundaryService.

Lemma find_boundary_by_id_some : forall bs bid b,
  find_boundary_by_id bs bid = Some b -> BoundaryModel.id b = Some bid.
Proof.
  intros bs bid b H. apply find_some in H as [_ Hk].
  unfold opt_eqb in Hk. destruct (BoundaryModel.id b) as [x|]; [|discriminate].
  apply Z.eqb_eq in Hk. subst. reflexivity.
Qed.

Lemma find_boundary_by_id_update : forall bs bid coordinates,
  find_boundary_by_id
    (map (fun b => if opt_eqb (BoundaryModel.id b) bid
                   then BoundaryModel.mk (BoundaryModel.id b) (BoundaryModel.map_id b) coordinates
                   else b) bs) bid =
  option_map (fun b => BoundaryModel.mk (BoundaryModel.id b) (BoundaryModel.map_id b) coordinates)
             (find_boundary_by_id bs bid).
Proof.
  unfold find_boundary_by_id. induction bs as [|b bs IH]; intros bid coordinates; [reflexivity|].
  simpl. destruct (opt_eqb (BoundaryModel.id b) bid) eqn:E; simpl; rewrite E; [reflexivity|].
  apply IH.
Qed.

Lemma map_update_none : forall bs bid coordinates,
  find_boundary_by_id bs bid = None ->
  map (fun b => if opt_eqb (BoundaryModel.id b) bid
                then BoundaryModel.mk (BoundaryModel.id b) (BoundaryModel.map_id b) coordinates
                else b) bs = bs.
Proof.
  unfold find_boundary_by_id. induction bs as [|b bs IH]; intros bid coordinates H;
    [reflexivity|].
  simpl in H |- *. destruct (opt_eqb (BoundaryModel.id b) bid); [discriminate|].
  rewrite IH; [reflexivity|exact H].
Qed.

Lemma find_boundary_by_id_filter_out : forall bs bid,
  find_boundary_by_id (filter (fun b => negb (opt_eqb (BoundaryModel.id b) bid)) bs) bid = None.
Proof.
  unfold find_boundary_by_id. induction bs as [|b bs IH]; intros bid; [reflexivity|]. simpl.
  destruct (opt_eqb (BoundaryModel.id b) bid) eqn:E; simpl; [apply IH|]. rewrite E. apply IH.
Qed.

Lemma set_boundaries_same : forall db, set_boundaries db (boundaries db) = db.
Proof. intros [areas ls bs ans c f sq]. reflexivity. Qed.

Lemma filter_keep_all {B} (p : B -> bool) : forall l,
  existsb p l = false -> filter (fun x => negb (p x)) l = l.
Proof.
  induction l as [|x l IH]; intros H; [reflexivity|]. simpl in H |- *.
  destruct (p x); [discriminate|]. simpl. rewrite IH; [reflexivity|exact H].
Qed.

Lemma existsb_not_pair : forall (coordinates : list (list PyNumber.number)),
  existsb (fun coord => negb (Nat.eqb (List.length coord) 2)) coordinates = false <->
  Forall (fun coord => List.length coord = 2%nat) coordinates.
Proof.
  induction coordinates as [|c cs IH]; simpl; [split; [constructor|reflexivity]|].
  rewrite orb_false_iff, IH, negb_false_iff, Nat.eqb_eq. split.
  - intros [H1 H2]. constructor; assumption.
  - intros H. inversion H. split; assumption.
Qed.

Lemma BoundaryModel_init_ok : forall map_id coordinates id,
  (3 <= List.length coordinates)%nat ->
  Forall (fun coord => List.length coord = 2%nat) coordinates ->
  BoundaryModel_init map_id coordinates id = Ret (BoundaryModel.mk id map_id coordinates).
Proof.
  intros map_id coordinates id H Hp. unfold BoundaryModel_init.
  apply existsb_not_pair in Hp. rewrite Hp.
  destruct (Nat.ltb_spec (List.length coordinates) 3); [lia|reflexivity].
Qed.

Lemma BoundaryModel_init_bad_pair : forall map_id coordinates id,
  (3 <= List.length coordinates)%nat ->
  Exists (fun coord => List.length coord <> 2%nat) coordinates ->
  BoundaryModel_init map_id coordinates id =
    Raise (ValueError "Each coordinate must be [lat, lon]").
Proof.
  intros map_id coordinates id H Hp. unfold BoundaryModel_init.
  destruct (existsb (fun coord => negb (Nat.eqb (List.length coord) 2)) coordinates) eqn:E.
  - destruct (Nat.ltb_spec (List.length coordinates) 3); [lia|reflexivity].
  - apply existsb_not_pair in E. apply Exists_Forall_neg in Hp;
      [contradiction|intros c; lia].
Qed.

Lemma BoundaryModel_init_short : forall map_id coordinates id,
  (List.length coordinates < 3)%nat ->
  BoundaryModel_init map_id coordinates id =
    Raise (ValueError "Boundary must have at least 3 coordinate pairs").
Proof.
  intros map_id coordinates id H. unfold BoundaryModel_init.
  destruct (Nat.ltb_spec (List.length coordinates) 3); [reflexivity|lia].
Qed.

End BoundaryStoreFacts.

Module BoundaryExtras.
Import BoundaryRoutes BoundaryService BoundaryStoreFacts.

(** [X18] [PUT /api/boundaries/<id>] with fewer than three pairs on an
    existing boundary answers 500 with the constructor's message, yet the
    new coordinates are already committed: the update runs before
    [_get_boundary] builds the model that rejects them. *)
Theorem update_boundary_short_ring_committed : forall db boundary_id b coordinates,
  fails db (QUpdateBoundary boundary_id) = false ->
  fails db (QBoundaryById boundary_id) = false ->
  find_boundary_by_id (boundaries db) boundary_id = Some b ->
  (List.length coordinates < 3)%nat ->
  exists db',
    update_boundary boundary_id (Some coordinates) db =
      (db', Ret (500, RError "Boundary must have at least 3 coordinate pairs")) /\
    find_boundary_by_id (boundaries db') boundary_id =
      Some (BoundaryModel.mk (BoundaryModel.id b) (BoundaryModel.map_id b) coordinates).
Proof.
  intros db bid b cs Hf1 Hf2 Hb Hlen.
  unfold update_boundary, BoundaryService.update, _get_boundary, try_except, bind, db_exec,
    lift, ret.
  rewrite Hf1. simpl. rewrite Hf2, find_boundary_by_id_update, Hb. simpl.
  rewrite BoundaryModel_init_short by exact Hlen.
  eexists. split; [reflexivity|]. simpl. rewrite find_boundary_by_id_update, Hb. reflexivity.
Qed.

(** [X19] [PUT /api/boundaries/<id>] on an existing boundary with at
    least three coordinates, each of length 2, answers 200 with the
    boundary carrying the new coordinates; with at least three coordinates
    of which one does not have length 2 it answers 500 with the
    constructor's message, the new coordinates already written; when no
    boundary has the id it answers 404 with the store unchanged. *)
Theorem update_boundary_result : forall db boundary_id coordinates,
  fails db (QUpdateBoundary boundary_id) = false ->
  fails db (QBoundaryById boundary_id) = false ->
  (forall b, find_boundary_by_id (boundaries db) boundary_id = Some b ->
     (3 <= List.length coordinates)%nat ->
     Forall (fun coord => List.length coord = 2%nat) coordinates ->
     exists db',
       update_boundary boundary_id (Some coordinates) db =
         (db', Ret (200, RBoundary (BoundaryModel.mk (BoundaryModel.id b)
                                      (BoundaryModel.map_id b) coordinates))) /\
       find_boundary_by_id (boundaries db') boundary_id =
         Some (BoundaryModel.mk (BoundaryModel.id b) (BoundaryModel.map_id b) coordinates)) /\
  (forall b, find_boundary_by_id (boundaries db) boundary_id = Some b ->
     (3 <= List.length coordinates)%nat ->
     Exists (fun coord => List.length coord <> 2%nat) coordinates ->
     exists db',
       update_boundary boundary_id (Some coordinates) db =
         (db', Ret (500, RError "Each coordinate must be [lat, lon]")) /\
       find_boundary_by_id (boundaries db') boundary_id =
         Some (BoundaryModel.mk (BoundaryModel.id b) (BoundaryModel.map_id b) coordinates)) /\
  (find_boundary_by_id (boundaries db) boundary_id = None ->
     update_boundary boundary_id (Some coordinates) db =
       (db, Ret (404, RError "Boundary not found"))).
Proof.
  intros db bid cs Hf1 Hf2. split; [|split].
  - intros b Hb Hlen Hp.
    unfold update_boundary, BoundaryService.update, _get_boundary, try_except, bind, db_exec,
      lift, ret.
    rewrite Hf1. simpl. rewrite Hf2, find_boundary_by_id_update, Hb. simpl.
    rewrite BoundaryModel_init_ok by assumption.
    eexists. split; [reflexivity|]. simpl. rewrite find_boundary_by_id_update, Hb. reflexivity.
  - intros b Hb Hlen Hp.
    unfold update_boundary, BoundaryService.update, _get_boundary, try_except, bind, db_exec,
      lift, ret.
    rewrite Hf1. simpl. rewrite Hf2, find_boundary_by_id_update, Hb. simpl.
    rewrite BoundaryModel_init_bad_pair by assumption.
    eexists. split; [reflexivity|]. simpl. rewrite find_boundary_by_id_update, Hb. reflexivity.
  - intros Hn.
    unfold update_boundary, BoundaryService.update, _get_boundary, try_except, bind, db_exec,
      lift, ret.
    rewrite Hf1. simpl. rewrite Hf2, map_update_none by exact Hn.
    rewrite set_boundaries_same, Hn. reflexivity.
Qed.

(** [X20] [DELETE /api/boundaries/<id>] removes the rows with that id and
    answers 200 when there was one, 404 with the store unchanged when there
    was none. *)
Theorem delete_boundary_result : forall db boundary_id,
  fails db (QDeleteBoundary boundary_id) = false ->
  delete_boundary boundary_id db =
    if existsb (fun b => opt_eqb (BoundaryModel.id b) boundary_id) (boundaries db)
    then (set_boundaries db (filter (fun b => negb (opt_eqb (BoundaryModel.id b) boundary_id))
                                    (boundaries db)),
          Ret (200, RMessage "Boundary deleted successfully"))
    else (db, Ret (404, RError "Boundary not found")).
Proof.
  intros db bid Hf. unfold delete_boundary, BoundaryService.delete, try_except, bind, db_exec,
    ret. rewrite Hf. simpl.
  rewrite (AnnotationStoreFacts.rowcount_existsb
             (fun b => opt_eqb (BoundaryModel.id b) bid)).
  destruct (existsb (fun b => opt_eqb (BoundaryModel.id b) bid) (boundaries db)) eqn:E;
    [reflexivity|].
  rewrite filter_keep_all by exact E. rewrite set_boundaries_same. reflexivity.
Qed.

(** [X21] [GET /api/boundaries/map-area/<id>] always answers, and never
    with 404: an area without a boundary makes [read] raise, which the
    handler turns into 500. *)
Theorem get_boundary_never_404 : forall db map_area_id,
  exists db' code r, get_boundary_by_map_area map_area_id db = (db', Ret (code, r)) /\
                     code <> 404.
Proof.
  intros db mid. unfold get_boundary_by_map_area, BoundaryService.read, try_except, bind,
    db_exec, lift, ret, raise.
  destruct (fails db (QBoundaryByArea mid)); [do 3 eexists; split; [reflexivity|lia]|].
  destruct (find_boundary (boundaries db) mid) as [b|]; simpl;
    [|do 3 eexists; split; [reflexivity|lia]].
  destruct (BoundaryModel_init (BoundaryModel.map_id b) (BoundaryModel.coordinates b)
              (BoundaryModel.id b)); do 3 eexists; split; try reflexivity; lia.
Qed.

(** [X22] [POST /api/boundaries] for an area without a parent (no
    [parent_id], or [0]) checks nothing but the constructor: fewer than
    three coordinates, or a coordinate whose length is not 2, answer 500
    with the constructor's message and nothing stored; otherwise the
    boundary is stored under the rowid the insert assigns and returned
    with 201. *)
Theorem create_boundary_root_area : forall db map_area_id coordinates ma rowid,
  rowid = insert_rowid (sequence db "boundaries") (map BoundaryModel.id (boundaries db)) ->
  map_area_id <> 0 ->
  fails db (QAreaById map_area_id) = false ->
  LayerService.find_area (map_areas db) map_area_id = Some ma ->
  MapModel.parent_id ma = None \/ MapModel.parent_id ma = Some 0 ->
  fails db QInsertBoundary = false ->
  create_boundary map_area_id coordinates db =
    if (List.length coordinates <? 3)%nat
    then (db, Ret (500, RError "Boundary must have at least 3 coordinate pairs"))
    else if existsb (fun coord => negb (Nat.eqb (List.length coord) 2)) coordinates
    then (db, Ret (500, RError "Each coordinate must be [lat, lon]"))
    else (set_boundaries (set_sequence db "boundaries" rowid)
            (boundaries db ++ [BoundaryModel.mk (Some rowid) map_area_id coordinates]),
          Ret (201, RBoundary (BoundaryModel.mk (Some rowid) map_area_id coordinates))).
Proof.
  intros db mid cs ma rowid Hr Hz Hf1 Ha Hp Hf2. subst rowid.
  unfold create_boundary, MapService.read, try_except, bind, db_exec, lift, ret.
  rewrite <- Z.eqb_neq in Hz. rewrite Hz, Hf1, Ha.
  destruct Hp as [Hp|Hp]; rewrite Hp; simpl;
    unfold BoundaryModel_init, BoundaryService.create, db_exec;
    destruct (List.length cs <? 3)%nat; simpl; try reflexivity;
    destruct (existsb (fun coord => negb (Nat.eqb (List.length coord) 2)) cs); simpl;
    try reflexivity; rewrite Hf2; reflexivity.
Qed.

(** [X23] [POST /api/boundaries] for an area whose parent has a boundary
    of at least three coordinates of length 2: when a coordinate falls
    outside the parent polygon the answer is 400 with the rejection
    message and nothing is stored, whatever the number of coordinates;
    when the check raises (a coordinate with fewer than two entries, a
    malformed parent vertex, a division error) the answer is 500 with the
    exception's text and nothing is stored; when all are inside and there
    are at least three coordinates, each of length 2, the boundary is
    stored and returned with 201. *)
Theorem create_boundary_within_parent :
  forall db map_area_id coordinates ma parent_id pb rowid,
  rowid = insert_rowid (sequence db "boundaries") (map BoundaryModel.id (boundaries db)) ->
  map_area_id <> 0 ->
  fails db (QAreaById map_area_id) = false ->
  LayerService.find_area (map_areas db) map_area_id = Some ma ->
  MapModel.parent_id ma = Some parent_id -> parent_id <> 0 ->
  fails db (QBoundaryByArea parent_id) = false ->
  find_boundary (boundaries db) parent_id = Some pb ->
  (3 <= List.length (BoundaryModel.coordinates pb))%nat ->
  Forall (fun coord => List.length coord = 2%nat) (BoundaryModel.coordinates pb) ->
  fails db QInsertBoundary = false ->
  (is_within_boundary coordinates (BoundaryModel.coordinates pb) = Ret false ->
   create_boundary map_area_id coordinates db =
     (db, Ret (400, RError (rejection_message (MapModel.area_type ma))))) /\
  (forall e, is_within_boundary coordinates (BoundaryModel.coordinates pb) = Raise e ->
   create_boundary map_area_id coordinates db = (db, Ret (500, RError (str_exn e)))) /\
  (is_within_boundary coordinates (BoundaryModel.coordinates pb) = Ret true ->
   (3 <= List.length coordinates)%nat ->
   Forall (fun coord => List.length coord = 2%nat) coordinates ->
   create_boundary map_area_id coordinates db =
     (set_boundaries (set_sequence db "boundaries" rowid)
        (boundaries db ++ [BoundaryModel.mk (Some rowid) map_area_id coordinates]),
      Ret (201, RBoundary (BoundaryModel.mk (Some rowid) map_area_id coordinates)))).
Proof.
  intros db mid cs ma p pb rowid Hr Hz Hf1 Ha Hp Hpz Hf2 Hb Hpb Hpp Hf3. subst rowid.
  unfold create_boundary, MapService.read, try_except, bind, db_exec, lift, ret.
  rewrite <- Z.eqb_neq in Hz, Hpz. rewrite Hz, Hf1, Ha. simpl. rewrite Hp, Hpz.
  unfold BoundaryService.read, bind, db_exec, lift, ret. rewrite Hf2, Hb. simpl.
  rewrite BoundaryModel_init_ok by assumption. simpl.
  split; [|split].
  - intros Hv. rewrite Hv. reflexivity.
  - intros e Hv. rewrite Hv. reflexivity.
  - intros Hv Hlen Hcs. rewrite Hv. simpl. rewrite BoundaryModel_init_ok by assumption. simpl.
    unfold BoundaryService.create, db_exec. rewrite Hf3. reflexivity.
Qed.

(** [X24] [POST /api/boundaries] for an area id [0] or one no area has
    answers 404 and stores nothing. *)
Theorem create_boundary_unknown_area : forall db map_area_id coordinates,
  (map_area_id = 0 /\ fails db QAreaList = false) \/
  (map_area_id <> 0 /\ fails db (QAreaById map_area_id) = false /\
   LayerService.find_area (map_areas db) map_area_id = None) ->
  create_boundary map_area_id coordinates db = (db, Ret (404, RError "Map area not found")).
Proof.
  intros db mid cs H.
  unfold create_boundary, MapService.read, try_except, bind, db_exec, ret.
  destruct H as [[Hz Hf]|[Hz [Hf Ha]]].
  - subst mid. simpl. rewrite Hf. reflexivity.
  - rewrite <- Z.eqb_neq in Hz. rewrite Hz, Hf, Ha. reflexivity.
Qed.

End BoundaryExtras.

(** ** The statements [DatabaseManager] builds *)
Module SqlFacts.
Import DatabaseManager.
Local Open Scope string_scope.

Lemma sapp_assoc : forall a b c : string, (a ++ b) ++ c = a ++ (b ++ c).
Proof. induction a as [|x a IH]; intros b c; simpl; [reflexivity|]. rewrite IH. reflexivity. Qed.

Lemma sapp_nil_r : forall a : string, a ++ "" = a.
Proof. induction a as [|x a IH]; simpl; [reflexivity|]. rewrite IH. reflexivity. Qed.

Lemma sapp_nonempty : forall a b : string, b <> "" -> a ++ b <> "".
Proof. intros [|x a] b H; simpl; [exact H|discriminate]. Qed.

Lemma rstrip_app : forall chars s1 s2,
  rstrip chars (s1 ++ s2) =
  match rstrip chars s2 with
  | EmptyString => rstrip chars s1
  | r => s1 ++ r
  end.
Proof.
  intros chars s1 s2. induction s1 as [|c s1 IH]; simpl.
  - destruct (rstrip chars s2); reflexivity.
  - rewrite IH. destruct (rstrip chars s2) as [|d r] eqn:E; [reflexivity|].
    destruct s1; reflexivity.
Qed.

Lemma rstrip_app_drop : forall chars s1 s2,
  rstrip chars s2 = "" -> rstrip chars (s1 ++ s2) = rstrip chars s1.
Proof. intros chars s1 s2 H. rewrite rstrip_app, H. reflexivity. Qed.

Lemma rstrip_app_keep : forall chars s1 s2,
  s2 <> "" -> rstrip chars s2 = s2 -> rstrip chars (s1 ++ s2) = s1 ++ s2.
Proof.
  intros chars s1 s2 Hn H. rewrite rstrip_app, H. destruct s2; [contradiction|reflexivity].
Qed.

Lemma concat_nonempty : forall sep l,
  l <> [] -> (forall s, In s l -> s <> "") -> concat sep l <> "".
Proof.
  intros sep [|x [|y l]] Hl H; [contradiction| |].
  - apply H. left. reflexivity.
  - simpl. destruct x as [|c x]; [|discriminate]. exfalso. apply (H "");
      [left; reflexivity|reflexivity].
Qed.

(** A [concat] whose last piece survives [rstrip] survives it whole. *)
Lemma rstrip_concat : forall chars sep l,
  l <> [] -> (forall s, In s l -> s <> "" /\ rstrip chars s = s) ->
  rstrip chars (concat sep l) = concat sep l.
Proof.
  intros chars sep l. induction l as [|x l IH]; intros Hl H; [contradiction|].
  destruct l as [|y l].
  - apply H. left. reflexivity.
  - change (concat sep (x :: y :: l)) with (x ++ sep ++ concat sep (y :: l)).
    rewrite <- sapp_assoc. apply rstrip_app_keep.
    + apply concat_nonempty; [discriminate|]. intros s Hs. apply H. right. exact Hs.
    + apply IH; [discriminate|]. intros s Hs. apply H. right. exact Hs.
Qed.

(** The loops of the builders: each entry appends a piece to the text and
    some values to the list. *)
Lemma fold_pieces {V} (f : string * list V -> string * pyval -> string * list V)
  (piece : string * pyval -> string) (vals : string * pyval -> list V) :
  (forall q ps kv, f (q, ps) kv = (q ++ piece kv, app ps (vals kv))) ->
  forall params q ps,
    fold_left f params (q, ps) =
    (q ++ fold_right (fun kv acc => piece kv ++ acc) "" params, app ps (flat_map vals params)).
Proof.
  intros Hf params. induction params as [|kv params IH]; intros q ps; simpl.
  - rewrite sapp_nil_r, app_nil_r. reflexivity.
  - rewrite Hf, IH, sapp_assoc, app_assoc. reflexivity.
Qed.

Lemma fold_right_sep {B} (p : B -> string) (sep : string) : forall l,
  l <> [] ->
  fold_right (fun kv acc => (p kv ++ sep) ++ acc) "" l = concat sep (map p l) ++ sep.
Proof.
  induction l as [|x l IH]; intros Hl; [contradiction|].
  destruct l as [|y l].
  - simpl. rewrite sapp_nil_r. reflexivity.
  - change (map p (x :: y :: l)) with (p x :: map p (y :: l)).
    change (concat sep (p x :: map p (y :: l))) with (p x ++ sep ++ concat sep (map p (y :: l))).
    simpl fold_right. simpl fold_right in IH. rewrite IH by discriminate.
    rewrite !sapp_assoc. reflexivity.
Qed.

Lemma fold_right_nosep {B} (p : B -> string) : forall l,
  fold_right (fun kv acc => p kv ++ acc) "" l = concat "" (map p l).
Proof.
  induction l as [|x l IH]; [reflexivity|].
  destruct l as [|y l].
  - simpl. apply sapp_nil_r.
  - simpl fold_right. simpl fold_right in IH. rewrite IH. reflexivity.
Qed.

Lemma map_ne_nil {A B} (f : A -> B) : forall l, l <> [] -> map f l <> [].
Proof. intros [|x l] H; [contradiction|discriminate]. Qed.

Lemma rstrip_concat_sfx {B} (chars sep : string) (key sfx : B -> string) (l : list B) :
  l <> [] -> (forall x, sfx x <> "" /\ rstrip chars (sfx x) = sfx x) ->
  rstrip chars (String.concat sep (map (fun x => key x ++ sfx x) l)) =
    String.concat sep (map (fun x => key x ++ sfx x) l) /\
  String.concat sep (map (fun x => key x ++ sfx x) l) <> "".
Proof.
  intros Hl Hs.
  assert (Hin : forall s, In s (map (fun x => key x ++ sfx x) l) ->
                s <> "" /\ rstrip chars s = s).
  { intros s Hin. apply in_map_iff in Hin as [x [<- _]]. destruct (Hs x) as [Hn Hr].
    split; [apply sapp_nonempty, Hn|apply rstrip_app_keep; assumption]. }
  split.
  - apply rstrip_concat; [apply map_ne_nil, Hl|exact Hin].
  - apply concat_nonempty; [apply map_ne_nil, Hl|]. intros s' Hs'. apply Hin, Hs'.
Qed.

Lemma flat_map_single {A B} (f : A -> B) : forall l,
  flat_map (fun x => [f x]) l = map f l.
Proof. induction l as [|x l IH]; simpl; [reflexivity|]. rewrite IH. reflexivity. Qed.

Lemma flat_map_filter {A B} (p : A -> bool) (f : A -> B) : forall l,
  flat_map (fun x => if p x then [] else [f x]) l = map f (filter (fun x => negb (p x)) l).
Proof.
  induction l as [|x l IH]; simpl; [reflexivity|]. rewrite IH. destruct (p x); reflexivity.
Qed.

End SqlFacts.

Module SqlExtras.
Import DatabaseManager SqlFacts.
Local Open Scope string_scope.

(** [X25] [DatabaseManager.delete] joins one [key = ?] condition per entry
    with [AND] and binds the values in order; with no entry the statement
    ends in a bare [WHERE]. *)
Theorem delete_statement : forall table parameters,
  (parameters <> [] ->
   DatabaseManager.delete table parameters =
     ("DELETE FROM " ++ table ++ " WHERE " ++
        String.concat " AND " (map (fun kv => fst kv ++ " = ?") parameters),
      map snd parameters)) /\
  DatabaseManager.delete table [] = ("DELETE FROM " ++ table ++ " WHERE", []).
Proof.
  intros table parameters. split.
  - intros Hne. unfold DatabaseManager.delete.
    rewrite (fold_pieces _ (fun kv => (fst kv ++ " = ?") ++ " AND ") (fun kv => [snd kv]))
      by (intros q ps [key value]; rewrite sapp_assoc; reflexivity).
    rewrite (fold_right_sep (fun kv => fst kv ++ " = ?")) by exact Hne.
    cbv beta iota. rewrite <- sapp_assoc, rstrip_app_drop by reflexivity.
    destruct (rstrip_concat_sfx " AND " " AND " fst (fun _ => " = ?") parameters Hne)
      as [Hr Hn]; [intros _; split; [discriminate|reflexivity]|].
    rewrite rstrip_app_keep by assumption. rewrite flat_map_single.
    rewrite !sapp_assoc. reflexivity.
  - unfold DatabaseManager.delete. cbn [fold_left]. cbv beta iota.
    change (" WHERE ") with (" WHERE" ++ " ").
    rewrite <- !sapp_assoc, rstrip_app_drop by reflexivity.
    rewrite rstrip_app_keep by (discriminate || reflexivity).
    rewrite !sapp_assoc. reflexivity.
Qed.

(** [X26] [DatabaseManager.read] with at least one filter and no ordering
    or limit builds [SELECT <fields> FROM <table> WHERE c1 AND c2 ...]: a
    value equal to ['NULL'] gives [key IS NULL] and binds nothing, any other
    value gives [key = ?] and is bound, in order. *)
Theorem read_statement : forall table fields params order_desc,
  params <> [] ->
  DatabaseManager.read table fields params None order_desc None =
    ("SELECT " ++ String.concat ", " fields ++ " FROM " ++ table ++ " WHERE " ++
       String.concat " AND "
         (map (fun kv => fst kv ++ (if is_NULL (snd kv) then " IS NULL" else " = ?")) params),
     map snd (filter (fun kv => negb (is_NULL (snd kv))) params)).
Proof.
  intros table fields params order_desc Hne. unfold DatabaseManager.read.
  destruct params as [|kv0 rest] eqn:Hp; [contradiction|]. rewrite <- Hp in *.
  cbv beta iota zeta.
  rewrite (fold_pieces _
             (fun kv => (fst kv ++ (if is_NULL (snd kv) then " IS NULL" else " = ?")) ++ " AND ")
             (fun kv => if is_NULL (snd kv) then [] else [snd kv])).
  2: { intros q ps [key value]. cbv beta iota. simpl fst; simpl snd.
       destruct (is_NULL value); cbv iota; [rewrite app_nil_r|];
         rewrite sapp_assoc; reflexivity. }
  rewrite (fold_right_sep (fun kv => fst kv ++ (if is_NULL (snd kv) then " IS NULL" else " = ?")))
    by exact Hne.
  cbv beta iota.
  set (C := String.concat " AND "
              (map (fun kv => fst kv ++ (if is_NULL (snd kv) then " IS NULL" else " = ?")) params)).
  rewrite <- (sapp_assoc _ C " AND "), rstrip_app_drop by reflexivity.
  destruct (rstrip_concat_sfx " AND " " AND " fst
              (fun kv => if is_NULL (snd kv) then " IS NULL" else " = ?") params Hne)
    as [Hr Hn]; [intros kv; destruct (is_NULL (snd kv)); split; (discriminate || reflexivity)|].
  fold C in Hr, Hn. rewrite rstrip_app_keep by assumption.
  rewrite flat_map_filter. subst C. rewrite !sapp_assoc. reflexivity.
Qed.

(** [X27] With no filter, [read]'s [rstrip(" AND ")] also strips the
    table name's trailing spaces and capital [A], [N], [D]: the statement is
    [SELECT <fields> FROM] followed by the table name so stripped, then the
    [ORDER BY] and [LIMIT] clauses, whatever [order_by], [order_desc] and
    [limit] are. *)
Theorem read_statement_no_filter : forall table fields order_by order_desc limit,
  rstrip " AND " table <> "" ->
  DatabaseManager.read table fields [] order_by order_desc limit =
    (let query := "SELECT " ++ String.concat ", " fields ++ " FROM " ++ rstrip " AND " table in
     let query := match order_by with
                  | Some ((_ :: _) as ob) =>
                      query ++ " ORDER BY " ++ String.concat ", " ob
                            ++ (if order_desc then " DESC" else "")
                  | _ => query
                  end in
     let query := match limit with
                  | Some n => query ++ " LIMIT " ++ z_to_string n
                  | None => query
                  end in
     (query, [])).
Proof.
  intros table fields order_by order_desc limit Hne. unfold DatabaseManager.read.
  cbn [fold_left]. cbv beta iota zeta.
  set (F := String.concat ", " fields).
  assert (Hq : rstrip " AND " ("SELECT " ++ F ++ " FROM " ++ table ++ " ") =
               "SELECT " ++ F ++ " FROM " ++ rstrip " AND " table).
  { replace ("SELECT " ++ F ++ " FROM " ++ table ++ " ")
      with (("SELECT " ++ F ++ " FROM ") ++ (table ++ " "))
      by (rewrite !sapp_assoc; reflexivity).
    rewrite rstrip_app, (rstrip_app_drop _ table " ") by reflexivity.
    destruct (rstrip " AND " table) as [|c r]; [contradiction|].
    rewrite !sapp_assoc. reflexivity. }
  rewrite Hq. reflexivity.
Qed.

(** [X28] [DatabaseManager.update] with at least one field builds
    [UPDATE <table> SET a1, a2 ... WHERE ...]: a field whose value is the
    text [CURRENT_TIMESTAMP] in any case gives [key = CURRENT_TIMESTAMP] and
    binds nothing; the [WHERE] conditions are concatenated with no separator,
    so two or more keys give malformed SQL. The values are the bound field
    values followed by the key values. *)
Theorem update_statement : forall table fields parameters,
  fields <> [] ->
  DatabaseManager.update table fields parameters =
    ("UPDATE " ++ table ++ " SET " ++
       String.concat ", "
         (map (fun kv => fst kv ++ (if is_current_timestamp (snd kv)
                                    then " = CURRENT_TIMESTAMP" else " = ?")) fields) ++
       " WHERE " ++ String.concat "" (map (fun kv => fst kv ++ " = ?") parameters),
     app (map snd (filter (fun kv => negb (is_current_timestamp (snd kv))) fields))
         (map snd parameters)).
Proof.
  intros table fields parameters Hne. unfold DatabaseManager.update.
  rewrite (fold_pieces _
             (fun kv => (fst kv ++ (if is_current_timestamp (snd kv)
                                    then " = CURRENT_TIMESTAMP" else " = ?")) ++ ", ")
             (fun kv => if is_current_timestamp (snd kv) then [] else [snd kv])).
  2: { intros q ps [key value]. cbv beta iota. simpl fst; simpl snd.
       destruct (is_current_timestamp value); cbv iota; [rewrite app_nil_r|];
         rewrite sapp_assoc; reflexivity. }
  rewrite (fold_right_sep (fun kv => fst kv ++ (if is_current_timestamp (snd kv)
                                                then " = CURRENT_TIMESTAMP" else " = ?")))
    by exact Hne.
  cbv beta iota zeta.
  set (C := String.concat ", "
              (map (fun kv => fst kv ++ (if is_current_timestamp (snd kv)
                                         then " = CURRENT_TIMESTAMP" else " = ?")) fields)).
  rewrite <- (sapp_assoc _ C ", "), rstrip_app_drop by reflexivity.
  destruct (rstrip_concat_sfx ", " ", " fst
              (fun kv => if is_current_timestamp (snd kv) then " = CURRENT_TIMESTAMP" else " = ?")
              fields Hne)
    as [Hr Hn];
    [intros kv; destruct (is_current_timestamp (snd kv)); split; (discriminate || reflexivity)|].
  fold C in Hr, Hn. rewrite rstrip_app_keep by assumption.
  rewrite (fold_pieces _ (fun kv => fst kv ++ " = ?") (fun kv => [snd kv]))
    by (intros q ps [key value]; reflexivity).
  rewrite fold_right_nosep, flat_map_filter, flat_map_single. cbv beta iota.
  subst C. rewrite !sapp_assoc. reflexivity.
Qed.

(** [X29] [DatabaseManager.create] with at least one column, none of whose
    names is empty or ends in a comma or space, builds
    [INSERT INTO <table> (k1, k2 ...) VALUES (?, ? ...)] with one placeholder
    per column and binds the values in order. *)
Theorem create_statement : forall table params,
  params <> [] ->
  Forall (fun kv => fst kv <> "" /\ rstrip ", " (fst kv) = fst kv) params ->
  DatabaseManager.create table params =
    ("INSERT INTO " ++ table ++ " (" ++ String.concat ", " (map fst params) ++ ") VALUES (" ++
       String.concat ", " (repeat "?" (List.length params)) ++ ")",
     map snd params).
Proof.
  intros table params Hne Hk. unfold DatabaseManager.create.
  rewrite (fold_pieces _ (fun kv => fst kv ++ ", ") (fun kv => [snd kv]))
    by (intros q ps [key value]; reflexivity).
  rewrite (fold_right_sep fst) by exact Hne.
  cbv beta iota zeta.
  set (C := String.concat ", " (map fst params)).
  rewrite <- (sapp_assoc _ C ", "), rstrip_app_drop by reflexivity.
  assert (Hin : forall s, In s (map fst params) -> s <> "" /\ rstrip ", " s = s).
  { intros s Hs. apply in_map_iff in Hs as [kv [<- Hkv]].
    rewrite Forall_forall in Hk. apply Hk, Hkv. }
  rewrite (rstrip_app_keep _ _ C).
  2: { apply concat_nonempty; [apply map_ne_nil, Hne|]. intros s Hs. apply Hin, Hs. }
  2: { apply rstrip_concat; [apply map_ne_nil, Hne|exact Hin]. }
  rewrite flat_map_single. subst C. rewrite !sapp_assoc. reflexivity.
Qed.

End SqlExtras.

(** * Instances of the further properties *)

Module PolygonExtraWitnesses.
Import PyFloat Geometry PolygonExtras.

(** A polygon lying on the line [y = 0] contains none of its own points. *)
Lemma point_in_polygon_flat_witness :
  _point_in_polygon (1, 0)%float [(0, 0); (1, 0); (2, 0)]%float = Ret false.
Proof.
  apply (point_in_polygon_flat (1, 0)%float [(0, 0); (1, 0); (2, 0)]%float 0%float).
  repeat constructor.
Defined.

End PolygonExtraWitnesses.

Module LayerExtraWitnesses.
Import LayerModel LayerService LayerExtras Fixtures.

(** A new layer in [layers_deleted] gets rowid 4, not 2, and reads back. *)
Lemma create_read_layer_roundtrip_witness :
  (forall i, In (Some i) (map id (layers layers_deleted)) -> i < 4) /\
  (forall s, sequence layers_deleted "layers" = Some s -> s < 4) /\
  exists db',
    create (own_layer 0 2 0 0 true) layers_deleted =
      (db', Ret (with_id (own_layer 0 2 0 0 true) 4)) /\
    layers db' = layers layers_deleted ++ [stored (own_layer 0 2 0 0 true) 4 10] /\
    read_layer 4 db' = (db', Ret (Some (stored (own_layer 0 2 0 0 true) 4 10))).
Proof.
  apply (create_read_layer_roundtrip layers_deleted (own_layer 0 2 0 0 true) 4);
    reflexivity.
Defined.

(** Renaming the editable layer 1 of [parent_and_child] to
    ["current_timestamp"], which the update writes inline. *)
Lemma layer_update_result_witness :
  exists db' l', update 1 [UName "current_timestamp"%string] parent_and_child =
                   (db', Ret (Some l')) /\
    id l' = id (own_layer 1 1 0 1 true) /\
    map_area_id l' = map_area_id (own_layer 1 1 0 1 true) /\
    parent_layer_id l' = parent_layer_id (own_layer 1 1 0 1 true) /\
    layer_type l' = layer_type (own_layer 1 1 0 1 true) /\
    is_editable l' = true /\ created_at l' = created_at (own_layer 1 1 0 1 true) /\
    updated_at l' = clock parent_and_child /\
    name l' = match find (fun u => String.eqb (update_key u) "name")
                         [UName "current_timestamp"%string] with
              | Some (UName v) => update_text (clock parent_and_child) v
              | _ => name (own_layer 1 1 0 1 true) end /\
    visible l' = match find (fun u => String.eqb (update_key u) "visible")
                            [UName "current_timestamp"%string] with
                 | Some (UVisible v) => v | _ => visible (own_layer 1 1 0 1 true) end /\
    z_index l' = match find (fun u => String.eqb (update_key u) "z_index")
                            [UName "current_timestamp"%string] with
                 | Some (UZIndex v) => v | _ => z_index (own_layer 1 1 0 1 true) end /\
    config l' = match find (fun u => String.eqb (update_key u) "config")
                           [UName "current_timestamp"%string] with
                | Some (UConfig v) => update_text (clock parent_and_child) v
                | _ => config (own_layer 1 1 0 1 true) end.
Proof.
  apply (layer_update_result parent_and_child 1 [UName "current_timestamp"%string]
           (own_layer 1 1 0 1 true));
    [lia | reflexivity | reflexivity | reflexivity | reflexivity
    | constructor; [exact I | constructor]].
Defined.

(** Renaming layer 1 of [parent_and_child] keeps its fixed columns. *)
Lemma layer_update_fixed_columns_witness :
  map (fun l => (id l, map_area_id l, parent_layer_id l, layer_type l, is_editable l,
                 created_at l))
      (layers (fst (update 1 [UName "Roads"%string] parent_and_child))) =
  map (fun l => (id l, map_area_id l, parent_layer_id l, layer_type l, is_editable l,
                 created_at l)) (layers parent_and_child) /\
  filter (fun l => negb (opt_eqb (id l) 1))
         (layers (fst (update 1 [UName "Roads"%string] parent_and_child))) =
  filter (fun l => negb (opt_eqb (id l) 1)) (layers parent_and_child).
Proof.
  apply (layer_update_fixed_columns parent_and_child 1 [UName "Roads"%string]
           (fst (update 1 [UName "Roads"%string] parent_and_child))
           (snd (update 1 [UName "Roads"%string] parent_and_child))).
  reflexivity.
Defined.

(** No layer 5 in [parent_and_child]. *)
Lemma layer_delete_not_found_witness : delete 5 parent_and_child = (parent_and_child, Ret false).
Proof.
  apply (layer_delete_not_found parent_and_child 5). right; right; reflexivity.
Defined.

(** Deleting the editable layer 1 of [parent_and_child]. *)
Lemma layer_delete_removes_witness :
  exists db', delete 1 parent_and_child = (db', Ret true) /\ read_layer 1 db' = (db', Ret None).
Proof.
  apply (layer_delete_removes parent_and_child 1 (own_layer 1 1 0 1 true));
    [lia | reflexivity | reflexivity | reflexivity | reflexivity].
Defined.

(** The read-only layer 1 of [read_only_layer] is moved to [z = 3]. *)
Lemma reorder_layers_ignores_editability_witness :
  _reorder_layers [(1, 3)] read_only_layer =
    (update_rows read_only_layer 1 [UZIndex 3],
     Ret [touch (set_field (LayerModel.mk (Some 1) 2 (Some 7) "Streets" "custom" true 0 false
                                          "{}" 1 1) (UZIndex 3)) (clock read_only_layer)]).
Proof.
  apply (reorder_layers_ignores_editability read_only_layer 1 3
           (LayerModel.mk (Some 1) 2 (Some 7) "Streets" "custom" true 0 false "{}" 1 1));
    [lia | reflexivity | reflexivity | reflexivity].
Defined.

End LayerExtraWitnesses.

Module AnnotationExtraWitnesses.
Import AnnotationModel AnnotationService AnnotationExtras Fixtures.

(** A marker on the editable layer 1 of [parent_and_child] gets rowid 1;
    [create] returns it with the caller's [updated_at] ([0]), the stored
    row has the store's clock ([10]). *)
Lemma annotation_create_read_roundtrip_witness :
  (forall i, In (Some i) (map id (annotations parent_and_child)) -> i < 1) /\
  exists db',
    create marker parent_and_child =
      (db', Ret (mk (Some 1) 1 "marker" "[3, 4]" "{}" "note" 0)) /\
    annotations db' = annotations parent_and_child ++ [mk (Some 1) 1 "marker" "[3, 4]" "{}" "note" 10] /\
    read 1 db' = (db', Ret (Some (mk (Some 1) 1 "marker" "[3, 4]" "{}" "note" 10))).
Proof.
  apply (annotation_create_read_roundtrip parent_and_child marker (own_layer 1 1 0 1 true) 1);
    reflexivity.
Defined.

(** [parent_and_child] has no layer 9. *)
Lemma annotation_create_missing_layer_witness :
  create (AnnotationModel.mk None 9 "marker" "[3, 4]" "{}" "note" 0) parent_and_child =
    (parent_and_child,
     Raise (ValueError "Error validating layer: Layer with ID 9 does not exist")).
Proof.
  apply (annotation_create_missing_layer parent_and_child
           (AnnotationModel.mk None 9 "marker" "[3, 4]" "{}" "note" 0));
    reflexivity.
Defined.

(** Annotation 1 of [read_only_layer] is deleted. *)
Lemma annotation_delete_result_witness :
  exists db',
    delete 1 read_only_layer = (db', Ret true) /\
    annotations db' = [] /\
    read 1 db' = (db', Ret None).
Proof.
  apply (annotation_delete_result read_only_layer 1); [lia | reflexivity | reflexivity].
Defined.

(** New content for annotation 1 of [read_only_layer]. *)
Lemma annotation_update_fixed_columns_witness :
  map (fun a => (id a, layer_id a, annotation_type a))
      (annotations (fst (update 1 [UContent "new"%string] read_only_layer))) =
  map (fun a => (id a, layer_id a, annotation_type a)) (annotations read_only_layer) /\
  filter (fun a => negb (opt_eqb (id a) 1))
         (annotations (fst (update 1 [UContent "new"%string] read_only_layer))) =
  filter (fun a => negb (opt_eqb (id a) 1)) (annotations read_only_layer).
Proof.
  apply (annotation_update_fixed_columns read_only_layer 1 [UContent "new"%string]
           (fst (update 1 [UContent "new"%string] read_only_layer))
           (snd (update 1 [UContent "new"%string] read_only_layer))).
  reflexivity.
Defined.

(** [read_only_layer] has no annotation 5. *)
Lemma annotation_update_missing_witness :
  update 5 [] read_only_layer = (read_only_layer, Ret None).
Proof.
  apply (annotation_update_missing read_only_layer 5 []);
    [lia | reflexivity | reflexivity | reflexivity].
Defined.

End AnnotationExtraWitnesses.

Module BoundaryExtraWitnesses.
Import BoundaryRoutes BoundaryService BoundaryExtras Fixtures.

(** A two-pair ring replaces boundary 1 and is answered with 500. *)
Lemma update_boundary_short_ring_committed_witness :
  exists db',
    update_boundary 1 (Some [pair 0 0; pair 1 1]) with_boundary =
      (db', Ret (500, RError "Boundary must have at least 3 coordinate pairs")) /\
    find_boundary_by_id (boundaries db') 1 =
      Some (BoundaryModel.mk (Some 1) 1 [pair 0 0; pair 1 1]).
Proof.
  apply (update_boundary_short_ring_committed with_boundary 1 (BoundaryModel.mk (Some 1) 1 square)
           [pair 0 0; pair 1 1]);
    [reflexivity | reflexivity | reflexivity | simpl; lia].
Defined.

(** Boundary 1 of [with_boundary] replaced by [triangle], and by a ring
    whose third coordinate is [[5]]. *)
Lemma update_boundary_result_witness :
  ((forall b, find_boundary_by_id (boundaries with_boundary) 1 = Some b ->
     (3 <= List.length triangle)%nat ->
     Forall (fun coord => List.length coord = 2%nat) triangle ->
     exists db',
       update_boundary 1 (Some triangle) with_boundary =
         (db', Ret (200, RBoundary (BoundaryModel.mk (BoundaryModel.id b)
                                      (BoundaryModel.map_id b) triangle))) /\
       find_boundary_by_id (boundaries db') 1 =
         Some (BoundaryModel.mk (BoundaryModel.id b) (BoundaryModel.map_id b) triangle)) /\
   (forall b, find_boundary_by_id (boundaries with_boundary) 1 = Some b ->
     (3 <= List.length triangle)%nat ->
     Exists (fun coord => List.length coord <> 2%nat) triangle ->
     exists db',
       update_boundary 1 (Some triangle) with_boundary =
         (db', Ret (500, RError "Each coordinate must be [lat, lon]")) /\
       find_boundary_by_id (boundaries db') 1 =
         Some (BoundaryModel.mk (BoundaryModel.id b) (BoundaryModel.map_id b) triangle)) /\
   (find_boundary_by_id (boundaries with_boundary) 1 = None ->
     update_boundary 1 (Some triangle) with_boundary =
       (with_boundary, Ret (404, RError "Boundary not found")))) /\
  ((forall b, find_boundary_by_id (boundaries with_boundary) 1 = Some b ->
     (3 <= List.length [pair 0 0; pair 1 0; [PyNumber.NInt 5]])%nat ->
     Forall (fun coord => List.length coord = 2%nat) [pair 0 0; pair 1 0; [PyNumber.NInt 5]] ->
     exists db',
       update_boundary 1 (Some [pair 0 0; pair 1 0; [PyNumber.NInt 5]]) with_boundary =
         (db', Ret (200, RBoundary (BoundaryModel.mk (BoundaryModel.id b)
                       (BoundaryModel.map_id b) [pair 0 0; pair 1 0; [PyNumber.NInt 5]]))) /\
       find_boundary_by_id (boundaries db') 1 =
         Some (BoundaryModel.mk (BoundaryModel.id b) (BoundaryModel.map_id b)
                 [pair 0 0; pair 1 0; [PyNumber.NInt 5]])) /\
   (forall b, find_boundary_by_id (boundaries with_boundary) 1 = Some b ->
     (3 <= List.length [pair 0 0; pair 1 0; [PyNumber.NInt 5]])%nat ->
     Exists (fun coord => List.length coord <> 2%nat) [pair 0 0; pair 1 0; [PyNumber.NInt 5]] ->
     exists db',
       update_boundary 1 (Some [pair 0 0; pair 1 0; [PyNumber.NInt 5]]) with_boundary =
         (db', Ret (500, RError "Each coordinate must be [lat, lon]")) /\
       find_boundary_by_id (boundaries db') 1 =
         Some (BoundaryModel.mk (BoundaryModel.id b) (BoundaryModel.map_id b)
                 [pair 0 0; pair 1 0; [PyNumber.NInt 5]])) /\
   (find_boundary_by_id (boundaries with_boundary) 1 = None ->
     update_boundary 1 (Some [pair 0 0; pair 1 0; [PyNumber.NInt 5]]) with_boundary =
       (with_boundary, Ret (404, RError "Boundary not found")))).
Proof.
  split.
  - apply (update_boundary_result with_boundary 1 triangle); reflexivity.
  - apply (update_boundary_result with_boundary 1 [pair 0 0; pair 1 0; [PyNumber.NInt 5]]);
      reflexivity.
Defined.

(** Boundary 1 of [with_boundary] is deleted; there is no boundary 2. *)
Lemma delete_boundary_result_witness :
  delete_boundary 1 with_boundary =
    (set_boundaries with_boundary [], Ret (200, RMessage "Boundary deleted successfully")).
Proof.
  apply (delete_boundary_result with_boundary 1). reflexivity.
Defined.

(** The master area 1 of [parent_and_child] has no parent; [boundaries]
    has no [sqlite_sequence] entry there, so the rowid is 1. *)
Lemma create_boundary_root_area_witness :
  create_boundary 1 triangle parent_and_child =
    (set_boundaries (set_sequence parent_and_child "boundaries" 1)
       [BoundaryModel.mk (Some 1) 1 triangle],
     Ret (201, RBoundary (BoundaryModel.mk (Some 1) 1 triangle))).
Proof.
  apply (create_boundary_root_area parent_and_child 1 triangle (MapModel.mk 1 None "master") 1);
    [reflexivity | lia | reflexivity | reflexivity | left; reflexivity | reflexivity].
Defined.

(** The suburb 2 of [with_boundary] inside the square of its master area. *)
Lemma create_boundary_within_parent_witness :
  (is_within_boundary triangle square = Ret false ->
   create_boundary 2 triangle with_boundary =
     (with_boundary, Ret (400, RError (rejection_message "suburb")))) /\
  (forall e, is_within_boundary triangle square = Raise e ->
   create_boundary 2 triangle with_boundary = (with_boundary, Ret (500, RError (str_exn e)))) /\
  (is_within_boundary triangle square = Ret true ->
   (3 <= List.length triangle)%nat ->
   Forall (fun coord => List.length coord = 2%nat) triangle ->
   create_boundary 2 triangle with_boundary =
     (set_boundaries (set_sequence with_boundary "boundaries" 2)
        (boundaries with_boundary ++ [BoundaryModel.mk (Some 2) 2 triangle]),
      Ret (201, RBoundary (BoundaryModel.mk (Some 2) 2 triangle)))).
Proof.
  apply (create_boundary_within_parent with_boundary 2 triangle (MapModel.mk 2 (Some 1) "suburb")
           1 (BoundaryModel.mk (Some 1) 1 square) 2);
    [reflexivity | lia | reflexivity | reflexivity | reflexivity | lia | reflexivity
    | reflexivity | simpl; lia | repeat constructor | reflexivity].
Defined.

(** [parent_and_child] has no area 5. *)
Lemma create_boundary_unknown_area_witness :
  create_boundary 5 triangle parent_and_child =
    (parent_and_child, Ret (404, RError "Map area not found")).
Proof.
  apply (create_boundary_unknown_area parent_and_child 5 triangle).
  right. split; [lia | split; reflexivity].
Defined.

End BoundaryExtraWitnesses.

Module SqlExtraWitnesses.
Import DatabaseManager SqlExtras.
Local Open Scope string_scope.

(** Deleting boundary 1, and the statement with no key. *)
Lemma delete_statement_witness :
  DatabaseManager.delete "boundaries" [("id", PInt 1)] =
    ("DELETE FROM boundaries WHERE id = ?", [PInt 1]) /\
  DatabaseManager.delete "boundaries" [] = ("DELETE FROM boundaries WHERE", []).
Proof.
  destruct (delete_statement "boundaries" [("id", PInt 1)]) as [H1 H2].
  split; [apply H1; discriminate | exact H2].
Defined.

(** The top-level layers of map area 1. *)
Lemma read_statement_witness :
  DatabaseManager.read "layers" ["*"] [("map_area_id", PInt 1); ("parent_layer_id", PStr "NULL")]
    None false None =
  ("SELECT * FROM layers WHERE map_area_id = ? AND parent_layer_id IS NULL", [PInt 1]).
Proof.
  apply (read_statement "layers" ["*"]
           [("map_area_id", PInt 1); ("parent_layer_id", PStr "NULL")] false).
  discriminate.
Defined.

(** The table [DATA] is read as [DAT], ordered and limited. *)
Lemma read_statement_no_filter_witness :
  DatabaseManager.read "DATA" ["*"] [] (Some ["z_index"]) true (Some 1) =
    ("SELECT * FROM DAT ORDER BY z_index DESC LIMIT 1", []).
Proof.
  apply (read_statement_no_filter "DATA" ["*"] (Some ["z_index"]) true (Some 1)).
  vm_compute. discriminate.
Defined.

(** A new [z_index] and a timestamp for layer 1. *)
Lemma update_statement_witness :
  DatabaseManager.update "layers"
    [("z_index", PInt 3); ("updated_at", PStr "current_timestamp")] [("id", PInt 1)] =
  ("UPDATE layers SET z_index = ?, updated_at = CURRENT_TIMESTAMP WHERE id = ?",
   [PInt 3; PInt 1]).
Proof.
  apply (update_statement "layers"
           [("z_index", PInt 3); ("updated_at", PStr "current_timestamp")] [("id", PInt 1)]).
  discriminate.
Defined.

(** A layer row with two columns. *)
Lemma create_statement_witness :
  DatabaseManager.create "layers" [("name", PStr "Streets"); ("z_index", PInt 0)] =
  ("INSERT INTO layers (name, z_index) VALUES (?, ?)", [PStr "Streets"; PInt 0]).
Proof.
  apply (create_statement "layers" [("name", PStr "Streets"); ("z_index", PInt 0)]);
    [discriminate
    | repeat constructor; simpl; (discriminate || reflexivity)].
Defined.

End SqlExtraWitnesses.
